(** * realfyoasis: phase classifiers and form evaluators for squats and push-ups

    A shallow embedding of the pose utilities ([src/utils/poseUtils.js]), of
    the squat rules (the module imported as [utils/squatRules], which this
    tree keeps as the second part of [poseUtils.js]) and of the push-up rules
    ([src/utils/pushupRules.js]), and the properties of the phase state
    machines and of the rule engines.

    Numbers.  A JavaScript number is modelled as an exact real number or
    [NaN]: arithmetic is the arithmetic of the reals, without rounding,
    overflow, infinities or signed zeros.  [NaN] is kept, because the code
    relies on every comparison with [NaN] being false and because the
    3D angle of a degenerate triple is [0/0].  [Math.acos], [Math.atan2] and
    [Math.sqrt] are the mathematical functions on their domains and [NaN]
    outside.

    Objects.  A landmark frame is [null]/[undefined] or an array of point
    objects; reading an array past its length gives [undefined], and
    reading a property of [undefined] raises a [TypeError]. *)

From Stdlib Require Import Reals Lra Lia List String Bool.
Import ListNotations.

(** ** JavaScript numbers *)

Module JSNum.

Inductive num : Type :=
| NaN
| Num (r : R).

Definition lift1 (f : R -> R) (a : num) : num :=
  match a with
  | Num r => Num (f r)
  | NaN => NaN
  end.

Definition lift2 (f : R -> R -> R) (a b : num) : num :=
  match a, b with
  | Num r, Num s => Num (f r s)
  | _, _ => NaN
  end.

Definition add : num -> num -> num := lift2 Rplus.
Definition sub : num -> num -> num := lift2 Rminus.
Definition mul : num -> num -> num := lift2 Rmult.

(** [a / b].  A zero divisor gives [NaN]: the only quotient of the program
    whose divisor can be zero is the one of [calculate3DAngle], and there a
    zero divisor comes with a zero dividend ([0/0]). *)
Definition div (a b : num) : num :=
  match a, b with
  | Num r, Num s => if Req_dec_T s 0 then NaN else Num (r / s)
  | _, _ => NaN
  end.

(** [a > b] and [a < b]: false as soon as one side is [NaN]. *)
Definition gt (a b : num) : bool :=
  match a, b with
  | Num r, Num s => if Rlt_dec s r then true else false
  | _, _ => false
  end.

Definition lt (a b : num) : bool := gt b a.

(** Unary minus. *)
Definition neg : num -> num := lift1 Ropp.

(** Truthiness of a number: [0] and [NaN] are falsy. *)
Definition truthy (a : num) : bool :=
  match a with
  | NaN => false
  | Num r => if Req_dec_T r 0 then false else true
  end.

(** A value that is [null] or a number. *)
Definition nullable : Type := option num.

(** [v || d] for a nullable number [v] and a number [d]. *)
Definition or_else (v : nullable) (d : num) : num :=
  match v with
  | Some a => if truthy a then a else d
  | None => d
  end.

(** The number a relational operator sees: [null] becomes [0]. *)
Definition ToNumber (v : nullable) : num :=
  match v with
  | Some a => a
  | None => Num 0
  end.

(** [v === null]. *)
Definition is_null (v : nullable) : bool :=
  match v with
  | Some _ => false
  | None => true
  end.

(** *** The [Math] object *)

Definition Math_PI : num := Num PI.

Definition Math_abs : num -> num := lift1 Rabs.

Definition Math_sqrt (a : num) : num :=
  match a with
  | Num r => if Rlt_dec r 0 then NaN else Num (sqrt r)
  | NaN => NaN
  end.

Definition Math_acos (a : num) : num :=
  match a with
  | Num r => if Rlt_dec r (-1) then NaN
             else if Rlt_dec 1 r then NaN
             else Num (acos r)
  | NaN => NaN
  end.

(** The angle of the point [(x, y)], in the interval (-PI, PI]. *)
Definition atan2 (y x : R) : R :=
  if Rlt_dec 0 x then atan (y / x)
  else if Rlt_dec x 0 then
    if Rlt_dec y 0 then atan (y / x) - PI else atan (y / x) + PI
  else
    if Rlt_dec 0 y then PI / 2
    else if Rlt_dec y 0 then - (PI / 2)
    else 0.

Definition Math_atan2 : num -> num -> num := lift2 atan2.

(** [Math.min] of two numbers. *)
Definition Math_min : num -> num -> num := lift2 Rmin.

(** [Math.pow(base, exponent)] for an exponent that is a natural number, as
    in every call of the program; with exponent [0] the result is [1], also
    for a [NaN] base. *)
Definition Math_pow (base : num) (exponent : nat) : num :=
  match exponent with
  | O => Num 1
  | S _ => lift1 (fun r => r ^ exponent)%R base
  end.

End JSNum.

Export JSNum.

Declare Scope num_scope.
Delimit Scope num_scope with num.
Bind Scope num_scope with num.
Infix "+" := add : num_scope.
Infix "-" := sub : num_scope.
Infix "*" := mul : num_scope.
Infix "/" := div : num_scope.
Notation "- a" := (neg a) : num_scope.
Infix ">?" := gt (at level 70, no associativity) : num_scope.
Infix "<?" := lt (at level 70, no associativity) : num_scope.

(** ** Exceptions *)

(** The outcome of a call: a value, or a [TypeError] raised by reading a
    property of [undefined]. *)
Inductive result (A : Type) : Type :=
| Ok (a : A)
| TypeError.

Arguments Ok {A} a.
Arguments TypeError {A}.

Definition bind {A B : Type} (c : result A) (k : A -> result B) : result B :=
  match c with
  | Ok a => k a
  | TypeError => TypeError
  end.

Notation "v <- c ;; k" := (bind c (fun v => k))
  (at level 61, c at next level, right associativity).

(** ** poseUtils.js *)

Module PoseUtils.

Local Open Scope num_scope.

Record Point : Type := mkPoint {
  x : num;
  y : num;
  z : num;
  visibility : num
}.

(** An object literal [{x, y, z}]: it has no [visibility] property, and
    reading it as a number would give [NaN]. *)
Definition xyz (x0 y0 z0 : num) : Point :=
  {| x := x0; y := y0; z := z0; visibility := NaN |}.

(** [p.field] for a [p] that may be [undefined]. *)
Definition deref (p : option Point) : result Point :=
  match p with
  | Some q => Ok q
  | None => TypeError
  end.

Definition calculateAngle (a b c : Point) : num :=
  let radians :=
    Math_atan2 (c.(y) - b.(y)) (c.(x) - b.(x))
    - Math_atan2 (a.(y) - b.(y)) (a.(x) - b.(x)) in
  let angle := Math_abs (radians * Num 180 / Math_PI) in
  let angle := if angle >? Num 180 then Num 360 - angle else angle in
  angle.

Definition calculate3DAngle (a b c : Point) : num :=
  let vectorBA := xyz (a.(x) - b.(x)) (a.(y) - b.(y)) (a.(z) - b.(z)) in
  let vectorBC := xyz (c.(x) - b.(x)) (c.(y) - b.(y)) (c.(z) - b.(z)) in
  let dotProduct :=
    vectorBA.(x) * vectorBC.(x) + vectorBA.(y) * vectorBC.(y)
    + vectorBA.(z) * vectorBC.(z) in
  let magnitudeBA :=
    Math_sqrt (vectorBA.(x) * vectorBA.(x) + vectorBA.(y) * vectorBA.(y)
               + vectorBA.(z) * vectorBA.(z)) in
  let magnitudeBC :=
    Math_sqrt (vectorBC.(x) * vectorBC.(x) + vectorBC.(y) * vectorBC.(y)
               + vectorBC.(z) * vectorBC.(z)) in
  let angle := Math_acos (dotProduct / (magnitudeBA * magnitudeBC)) in
  angle * Num 180 / Math_PI.

Definition calculateDistance (a b : Point) : num :=
  Math_sqrt (Math_pow (b.(x) - a.(x)) 2 + Math_pow (b.(y) - a.(y)) 2).

Definition calculate3DDistance (a b : Point) : num :=
  Math_sqrt (Math_pow (b.(x) - a.(x)) 2
             + Math_pow (b.(y) - a.(y)) 2
             + Math_pow (b.(z) - a.(z)) 2).

(** [isPointVisible(point, minConfidence)], read as a condition. *)
Definition isPointVisible (point : option Point) (minConfidence : num) : bool :=
  match point with
  | Some p => p.(visibility) >? minConfidence
  | None => false
  end.

(** The default value of [minConfidence]. *)
Definition defaultMinConfidence : num := Num 0.5.

Definition getMidpoint (a b : Point) : Point :=
  {| x := (a.(x) + b.(x)) / Num 2;
     y := (a.(y) + b.(y)) / Num 2;
     z := (a.(z) + b.(z)) / Num 2;
     visibility := Math_min a.(visibility) b.(visibility) |}.

Inductive LandmarkName : Type :=
| nose | leftEye | rightEye | leftEar | rightEar
| leftShoulder | rightShoulder | leftElbow | rightElbow
| leftWrist | rightWrist | leftHip | rightHip
| leftKnee | rightKnee | leftAnkle | rightAnkle.

Definition landmarkIndices (name : LandmarkName) : nat :=
  match name with
  | nose => 0
  | leftEye => 1
  | rightEye => 2
  | leftEar => 3
  | rightEar => 4
  | leftShoulder => 5
  | rightShoulder => 6
  | leftElbow => 7
  | rightElbow => 8
  | leftWrist => 9
  | rightWrist => 10
  | leftHip => 11
  | rightHip => 12
  | leftKnee => 13
  | rightKnee => 14
  | leftAnkle => 15
  | rightAnkle => 16
  end.

(** A frame: [None] for [null]/[undefined], else the array of points. *)
Definition Landmarks : Type := option (list Point).

(** The object built by [getNamedLandmarks]: each name bound to
    [landmarks[index]], which is [undefined] past the end of the array. *)
Definition NamedLandmarks : Type := LandmarkName -> option Point.

Definition getNamedLandmarks (landmarks : Landmarks) : option NamedLandmarks :=
  match landmarks with
  | None => None
  | Some [] => None
  | Some l => Some (fun name => nth_error l (landmarkIndices name))
  end.

(** The object returned by the two evaluators; [angles] is [None] when the
    property is not set. *)
Record Evaluation : Type := mkEvaluation {
  isCorrect : bool;
  issues : list string;
  angles : option (list (string * num))
}.

(** [issues.push(msg)] under a condition. *)
Definition push_if (cond : bool) (msg : string) (issues0 : list string)
  : list string :=
  if cond then issues0 ++ [msg] else issues0.

End PoseUtils.

(** ** squatRules.js (second part of poseUtils.js) *)

Module SquatRules.

Import PoseUtils.
Local Open Scope string_scope.
Local Open Scope num_scope.

(** [SQUAT_PHASES]: the four phase tags. *)
Inductive SQUAT_PHASES : Type :=
| STANDING
| DESCENDING
| BOTTOM
| ASCENDING.

(** [p === q] on phase tags. *)
Definition phase_eqb (p q : SQUAT_PHASES) : bool :=
  match p, q with
  | STANDING, STANDING => true
  | DESCENDING, DESCENDING => true
  | BOTTOM, BOTTOM => true
  | ASCENDING, ASCENDING => true
  | _, _ => false
  end.

Module THRESHOLDS.
Definition MIN_KNEE_ANGLE : num := Num 70.
Definition MAX_KNEE_ANGLE : num := Num 100.
Definition MIN_HIP_ANGLE : num := Num 70.
Definition MAX_HIP_ANGLE : num := Num 110.
Definition MAX_BACK_LEAN : num := Num 45.
Definition MAX_KNEE_FORWARD : num := Num 0.1.
Definition MAX_KNEE_INWARD : num := Num 0.1.
Definition MIN_DEPTH_RATIO : num := Num 0.7.
Definition CONFIDENCE_THRESHOLD : num := Num 0.5.
End THRESHOLDS.

(** The object [{ phase, hipHeight }]. *)
Record PhaseResult : Type := mkPhaseResult {
  phase : SQUAT_PHASES;
  hipHeight : nullable
}.

(** [determineSquatPhase(landmarks, prevPhase, prevHipHeight)]; a caller
    that leaves the last two out gets [STANDING] and [null]. *)
Definition determineSquatPhase (landmarks : Landmarks)
    (prevPhase : SQUAT_PHASES) (prevHipHeight : nullable)
  : result PhaseResult :=
  match getNamedLandmarks landmarks with
  | None => Ok {| phase := prevPhase; hipHeight := prevHipHeight |}
  | Some namedLandmarks =>
    if negb (isPointVisible (namedLandmarks leftHip) defaultMinConfidence)
       || negb (isPointVisible (namedLandmarks rightHip) defaultMinConfidence)
       || negb (isPointVisible (namedLandmarks leftKnee) defaultMinConfidence)
       || negb (isPointVisible (namedLandmarks rightKnee) defaultMinConfidence)
       || negb (isPointVisible (namedLandmarks leftAnkle) defaultMinConfidence)
       || negb (isPointVisible (namedLandmarks rightAnkle) defaultMinConfidence)
    then Ok {| phase := prevPhase; hipHeight := prevHipHeight |}
    else
      leftHip' <- deref (namedLandmarks leftHip) ;;
      rightHip' <- deref (namedLandmarks rightHip) ;;
      let hipHeight := (leftHip'.(y) + rightHip'.(y)) / Num 2 in
      leftKnee' <- deref (namedLandmarks leftKnee) ;;
      leftAnkle' <- deref (namedLandmarks leftAnkle) ;;
      let leftKneeAngle := calculate3DAngle leftHip' leftKnee' leftAnkle' in
      rightKnee' <- deref (namedLandmarks rightKnee) ;;
      rightAnkle' <- deref (namedLandmarks rightAnkle) ;;
      let rightKneeAngle := calculate3DAngle rightHip' rightKnee' rightAnkle' in
      let avgKneeAngle := (leftKneeAngle + rightKneeAngle) / Num 2 in
      let phase := prevPhase in
      let phase :=
        if avgKneeAngle >? Num 160 then STANDING
        else if (avgKneeAngle <? Num 110)
                && (hipHeight >? or_else prevHipHeight (Num 0)) then DESCENDING
        else if (avgKneeAngle <? Num 110)
                && (hipHeight <? or_else prevHipHeight (Num 1)) then ASCENDING
        else phase in
      let phase :=
        if phase_eqb phase DESCENDING && phase_eqb prevPhase DESCENDING
           && (hipHeight <? or_else prevHipHeight (Num 1))
        then BOTTOM else phase in
      Ok {| phase := phase; hipHeight := Some hipHeight |}
  end.

Definition evaluateSquatForm (landmarks : Landmarks) (phase : SQUAT_PHASES)
  : result Evaluation :=
  match getNamedLandmarks landmarks with
  | None =>
    Ok {| isCorrect := false; issues := ["No landmarks detected"];
          angles := None |}
  | Some namedLandmarks =>
    let requiredLandmarks :=
      [ namedLandmarks leftShoulder; namedLandmarks rightShoulder;
        namedLandmarks leftHip; namedLandmarks rightHip;
        namedLandmarks leftKnee; namedLandmarks rightKnee;
        namedLandmarks leftAnkle; namedLandmarks rightAnkle ] in
    if existsb
         (fun landmark =>
            negb (isPointVisible landmark THRESHOLDS.CONFIDENCE_THRESHOLD))
         requiredLandmarks
    then
      Ok {| isCorrect := false; issues := ["Some key landmarks not visible"];
            angles := None |}
    else
      let issues : list string := [] in
      leftHip' <- deref (namedLandmarks leftHip) ;;
      leftKnee' <- deref (namedLandmarks leftKnee) ;;
      leftAnkle' <- deref (namedLandmarks leftAnkle) ;;
      let leftKneeAngle := calculate3DAngle leftHip' leftKnee' leftAnkle' in
      rightHip' <- deref (namedLandmarks rightHip) ;;
      rightKnee' <- deref (namedLandmarks rightKnee) ;;
      rightAnkle' <- deref (namedLandmarks rightAnkle) ;;
      let rightKneeAngle := calculate3DAngle rightHip' rightKnee' rightAnkle' in
      leftShoulder' <- deref (namedLandmarks leftShoulder) ;;
      let leftHipAngle := calculate3DAngle leftShoulder' leftHip' leftKnee' in
      rightShoulder' <- deref (namedLandmarks rightShoulder) ;;
      let rightHipAngle := calculate3DAngle rightShoulder' rightHip' rightKnee' in
      let midShoulder :=
        xyz ((leftShoulder'.(x) + rightShoulder'.(x)) / Num 2)
            ((leftShoulder'.(y) + rightShoulder'.(y)) / Num 2)
            ((leftShoulder'.(z) + rightShoulder'.(z)) / Num 2) in
      let midHip :=
        xyz ((leftHip'.(x) + rightHip'.(x)) / Num 2)
            ((leftHip'.(y) + rightHip'.(y)) / Num 2)
            ((leftHip'.(z) + rightHip'.(z)) / Num 2) in
      let verticalRef := xyz (midHip.(x)) (Num 0) (midHip.(z)) in
      let backAngle := calculateAngle verticalRef midHip midShoulder in
      let issues :=
        match phase with
        | BOTTOM =>
          let issues :=
            push_if ((leftKneeAngle >? THRESHOLDS.MAX_KNEE_ANGLE)
                     || (rightKneeAngle >? THRESHOLDS.MAX_KNEE_ANGLE))
                    "Knees not bent enough" issues in
          let issues :=
            push_if ((leftKneeAngle <? THRESHOLDS.MIN_KNEE_ANGLE)
                     || (rightKneeAngle <? THRESHOLDS.MIN_KNEE_ANGLE))
                    "Knees bent too much" issues in
          let issues :=
            push_if ((leftHipAngle >? THRESHOLDS.MAX_HIP_ANGLE)
                     || (rightHipAngle >? THRESHOLDS.MAX_HIP_ANGLE))
                    "Hips not bent enough" issues in
          let issues :=
            push_if ((leftHipAngle <? THRESHOLDS.MIN_HIP_ANGLE)
                     || (rightHipAngle <? THRESHOLDS.MIN_HIP_ANGLE))
                    "Hips bent too much" issues in
          let issues :=
            push_if (backAngle >? THRESHOLDS.MAX_BACK_LEAN)
                    "Back leaning too far forward" issues in
          let issues :=
            push_if ((leftKnee'.(z)
                        <? leftAnkle'.(z) - THRESHOLDS.MAX_KNEE_FORWARD)
                     || (rightKnee'.(z)
                           <? rightAnkle'.(z) - THRESHOLDS.MAX_KNEE_FORWARD))
                    "Knees too far forward of toes" issues in
          let issues :=
            push_if ((Math_abs (leftKnee'.(x) - leftAnkle'.(x))
                        >? THRESHOLDS.MAX_KNEE_INWARD)
                     || (Math_abs (rightKnee'.(x) - rightAnkle'.(x))
                           >? THRESHOLDS.MAX_KNEE_INWARD))
                    "Knees not aligned with toes" issues in
          issues
        | DESCENDING | ASCENDING =>
          let issues :=
            push_if (backAngle >? THRESHOLDS.MAX_BACK_LEAN)
                    "Back leaning too far forward" issues in
          let issues :=
            push_if ((Math_abs (leftKnee'.(x) - leftAnkle'.(x))
                        >? THRESHOLDS.MAX_KNEE_INWARD)
                     || (Math_abs (rightKnee'.(x) - rightAnkle'.(x))
                           >? THRESHOLDS.MAX_KNEE_INWARD))
                    "Knees not aligned with toes" issues in
          issues
        | STANDING =>
          let issues :=
            push_if ((leftKneeAngle <? Num 160) || (rightKneeAngle <? Num 160))
                    "Not fully standing between reps" issues in
          let issues :=
            push_if (backAngle >? Num 20)
                    "Not standing upright between reps" issues in
          issues
        end in
      Ok {| isCorrect := Nat.eqb (List.length issues) 0;
            issues := issues;
            angles := Some [ ("leftKnee", leftKneeAngle);
                             ("rightKnee", rightKneeAngle);
                             ("leftHip", leftHipAngle);
                             ("rightHip", rightHipAngle);
                             ("back", backAngle) ] |}
  end.

End SquatRules.

(** ** pushupRules.js *)

Module PushupRules.

Import PoseUtils.
Local Open Scope string_scope.
Local Open Scope num_scope.

(** [PUSHUP_PHASES]: the four phase tags. *)
Inductive PUSHUP_PHASES : Type :=
| TOP
| DESCENDING
| BOTTOM
| ASCENDING.

(** [p === q] on phase tags. *)
Definition phase_eqb (p q : PUSHUP_PHASES) : bool :=
  match p, q with
  | TOP, TOP => true
  | DESCENDING, DESCENDING => true
  | BOTTOM, BOTTOM => true
  | ASCENDING, ASCENDING => true
  | _, _ => false
  end.

Module THRESHOLDS.
Definition MIN_ELBOW_ANGLE : num := Num 70.
Definition MAX_ELBOW_ANGLE : num := Num 100.
Definition MIN_TOP_ELBOW_ANGLE : num := Num 150.
Definition MAX_BACK_SAG : num := Num 15.
Definition MAX_BACK_PIKE : num := Num 15.
Definition MAX_NECK_ANGLE : num := Num 30.
Definition MIN_DEPTH_RATIO : num := Num 0.8.
Definition CONFIDENCE_THRESHOLD : num := Num 0.5.
End THRESHOLDS.

(** The object [{ phase, elbowAngle }]. *)
Record PhaseResult : Type := mkPhaseResult {
  phase : PUSHUP_PHASES;
  elbowAngle : nullable
}.

(** [determinePushupPhase(landmarks, prevPhase, prevElbowAngle)]; a caller
    that leaves the last two out gets [TOP] and [null]. *)
Definition determinePushupPhase (landmarks : Landmarks)
    (prevPhase : PUSHUP_PHASES) (prevElbowAngle : nullable)
  : result PhaseResult :=
  match getNamedLandmarks landmarks with
  | None => Ok {| phase := prevPhase; elbowAngle := prevElbowAngle |}
  | Some namedLandmarks =>
    if negb (isPointVisible (namedLandmarks leftShoulder) defaultMinConfidence)
       || negb (isPointVisible (namedLandmarks rightShoulder) defaultMinConfidence)
       || negb (isPointVisible (namedLandmarks leftElbow) defaultMinConfidence)
       || negb (isPointVisible (namedLandmarks rightElbow) defaultMinConfidence)
       || negb (isPointVisible (namedLandmarks leftWrist) defaultMinConfidence)
       || negb (isPointVisible (namedLandmarks rightWrist) defaultMinConfidence)
    then Ok {| phase := prevPhase; elbowAngle := prevElbowAngle |}
    else
      leftShoulder' <- deref (namedLandmarks leftShoulder) ;;
      leftElbow' <- deref (namedLandmarks leftElbow) ;;
      leftWrist' <- deref (namedLandmarks leftWrist) ;;
      let leftElbowAngle :=
        calculate3DAngle leftShoulder' leftElbow' leftWrist' in
      rightShoulder' <- deref (namedLandmarks rightShoulder) ;;
      rightElbow' <- deref (namedLandmarks rightElbow) ;;
      rightWrist' <- deref (namedLandmarks rightWrist) ;;
      let rightElbowAngle :=
        calculate3DAngle rightShoulder' rightElbow' rightWrist' in
      let avgElbowAngle := (leftElbowAngle + rightElbowAngle) / Num 2 in
      let phase := prevPhase in
      let phase :=
        if avgElbowAngle >? Num 150 then TOP
        else if (avgElbowAngle <? Num 120)
                && (is_null prevElbowAngle
                    || (avgElbowAngle <? ToNumber prevElbowAngle))
        then DESCENDING
        else if (avgElbowAngle <? Num 120)
                && (avgElbowAngle >? ToNumber prevElbowAngle)
        then ASCENDING
        else phase in
      let phase :=
        if phase_eqb phase DESCENDING && phase_eqb prevPhase DESCENDING
           && (avgElbowAngle >? ToNumber prevElbowAngle)
        then BOTTOM else phase in
      Ok {| phase := phase; elbowAngle := Some avgElbowAngle |}
  end.

Definition evaluatePushupForm (landmarks : Landmarks) (phase : PUSHUP_PHASES)
  : result Evaluation :=
  match getNamedLandmarks landmarks with
  | None =>
    Ok {| isCorrect := false; issues := ["No landmarks detected"];
          angles := None |}
  | Some namedLandmarks =>
    let requiredLandmarks :=
      [ namedLandmarks leftShoulder; namedLandmarks rightShoulder;
        namedLandmarks leftElbow; namedLandmarks rightElbow;
        namedLandmarks leftWrist; namedLandmarks rightWrist;
        namedLandmarks leftHip; namedLandmarks rightHip ] in
    if existsb
         (fun landmark =>
            negb (isPointVisible landmark THRESHOLDS.CONFIDENCE_THRESHOLD))
         requiredLandmarks
    then
      Ok {| isCorrect := false; issues := ["Some key landmarks not visible"];
            angles := None |}
    else
      let issues : list string := [] in
      leftShoulder' <- deref (namedLandmarks leftShoulder) ;;
      leftElbow' <- deref (namedLandmarks leftElbow) ;;
      leftWrist' <- deref (namedLandmarks leftWrist) ;;
      let leftElbowAngle :=
        calculate3DAngle leftShoulder' leftElbow' leftWrist' in
      rightShoulder' <- deref (namedLandmarks rightShoulder) ;;
      rightElbow' <- deref (namedLandmarks rightElbow) ;;
      rightWrist' <- deref (namedLandmarks rightWrist) ;;
      let rightElbowAngle :=
        calculate3DAngle rightShoulder' rightElbow' rightWrist' in
      let midShoulder :=
        xyz ((leftShoulder'.(x) + rightShoulder'.(x)) / Num 2)
            ((leftShoulder'.(y) + rightShoulder'.(y)) / Num 2)
            ((leftShoulder'.(z) + rightShoulder'.(z)) / Num 2) in
      leftHip' <- deref (namedLandmarks leftHip) ;;
      rightHip' <- deref (namedLandmarks rightHip) ;;
      let midHip :=
        xyz ((leftHip'.(x) + rightHip'.(x)) / Num 2)
            ((leftHip'.(y) + rightHip'.(y)) / Num 2)
            ((leftHip'.(z) + rightHip'.(z)) / Num 2) in
      let horizontalRef :=
        xyz (midShoulder.(x) + Num 1) (midShoulder.(y)) (midShoulder.(z)) in
      let backAngle := calculateAngle horizontalRef midShoulder midHip in
      leftEye' <- deref (namedLandmarks leftEye) ;;
      rightEye' <- deref (namedLandmarks rightEye) ;;
      let midEye :=
        xyz ((leftEye'.(x) + rightEye'.(x)) / Num 2)
            ((leftEye'.(y) + rightEye'.(y)) / Num 2)
            ((leftEye'.(z) + rightEye'.(z)) / Num 2) in
      nose' <- deref (namedLandmarks nose) ;;
      let neckAngle := calculateAngle midShoulder nose' midEye in
      let issues :=
        match phase with
        | BOTTOM =>
          let issues :=
            push_if ((leftElbowAngle >? THRESHOLDS.MAX_ELBOW_ANGLE)
                     || (rightElbowAngle >? THRESHOLDS.MAX_ELBOW_ANGLE))
                    "Not going deep enough" issues in
          let issues :=
            push_if ((leftElbowAngle <? THRESHOLDS.MIN_ELBOW_ANGLE)
                     || (rightElbowAngle <? THRESHOLDS.MIN_ELBOW_ANGLE))
                    "Elbows bent too much" issues in
          let issues :=
            if backAngle >? THRESHOLDS.MAX_BACK_SAG
            then (issues ++ ["Back sagging too much"])%list
            else if backAngle <? - THRESHOLDS.MAX_BACK_PIKE
            then (issues ++ ["Hips too high (piking)"])%list
            else issues in
          let issues :=
            push_if (Math_abs neckAngle >? THRESHOLDS.MAX_NECK_ANGLE)
                    "Neck not in neutral position" issues in
          issues
        | TOP =>
          let issues :=
            push_if ((leftElbowAngle <? THRESHOLDS.MIN_TOP_ELBOW_ANGLE)
                     || (rightElbowAngle <? THRESHOLDS.MIN_TOP_ELBOW_ANGLE))
                    "Arms not fully extended at top" issues in
          let issues :=
            if backAngle >? THRESHOLDS.MAX_BACK_SAG
            then (issues ++ ["Back sagging too much"])%list
            else if backAngle <? - THRESHOLDS.MAX_BACK_PIKE
            then (issues ++ ["Hips too high (piking)"])%list
            else issues in
          issues
        | DESCENDING | ASCENDING =>
          let issues :=
            if backAngle >? THRESHOLDS.MAX_BACK_SAG
            then (issues ++ ["Back sagging too much"])%list
            else if backAngle <? - THRESHOLDS.MAX_BACK_PIKE
            then (issues ++ ["Hips too high (piking)"])%list
            else issues in
          let issues :=
            push_if (Math_abs neckAngle >? THRESHOLDS.MAX_NECK_ANGLE)
                    "Neck not in neutral position" issues in
          issues
        end in
      Ok {| isCorrect := Nat.eqb (List.length issues) 0;
            issues := issues;
            angles := Some [ ("leftElbow", leftElbowAngle);
                             ("rightElbow", rightElbowAngle);
                             ("back", backAngle);
                             ("neck", neckAngle) ] |}
  end.

End PushupRules.

(** ** PoseDetector.jsx: the frame loop *)

(** The part of the component that drives the rules: the state it keeps
    from one frame to the next, and the block of [predictWebcam] that
    handles the results of one detection.  A state variable holds the value
    last given to its setter; camera, canvas and rendering are left out. *)
Module PoseDetector.

Import PoseUtils.

(** The state and the refs of the component, for phases of type [P]. *)
Record Detector (P : Type) : Type := mkDetector {
  evaluation : Evaluation;
  phase : P;
  landmarks : Landmarks;
  prevPhaseRef : P;
  prevValueRef : nullable
}.

Arguments mkDetector {P}.
Arguments evaluation {P}.
Arguments phase {P}.
Arguments landmarks {P}.
Arguments prevPhaseRef {P}.
Arguments prevValueRef {P}.

(** [results.landmarks]: absent, or the array of the detected poses. *)
Definition DetectedPoses : Type := option (list (list Point)).

(** The values the component is mounted with, for an initial phase. *)
Definition mount {P : Type} (rest : P) : Detector P :=
  {| evaluation := {| isCorrect := true; issues := []; angles := None |};
     phase := rest;
     landmarks := None;
     prevPhaseRef := rest;
     prevValueRef := None |}.

Definition mountSquat : Detector SquatRules.SQUAT_PHASES :=
  mount SquatRules.STANDING.

Definition mountPushup : Detector PushupRules.PUSHUP_PHASES :=
  mount PushupRules.TOP.

(** The block for [exerciseType === 'squat'].  An exception raised by a
    rule is caught by the enclosing [try]: the assignments made before it
    stay. *)
Definition processSquat (results : DetectedPoses)
    (st : Detector SquatRules.SQUAT_PHASES)
  : Detector SquatRules.SQUAT_PHASES :=
  match results with
  | Some (detectedLandmarks :: _) =>
    let st :=
      {| evaluation := st.(evaluation); phase := st.(phase);
         landmarks := Some detectedLandmarks;
         prevPhaseRef := st.(prevPhaseRef);
         prevValueRef := st.(prevValueRef) |} in
    match SquatRules.determineSquatPhase (Some detectedLandmarks)
            st.(prevPhaseRef) st.(prevValueRef) with
    | TypeError => st
    | Ok r =>
      let newPhase := r.(SquatRules.phase) in
      let hipHeight := r.(SquatRules.hipHeight) in
      let st :=
        if negb (SquatRules.phase_eqb newPhase st.(prevPhaseRef))
        then {| evaluation := st.(evaluation); phase := newPhase;
                landmarks := st.(landmarks);
                prevPhaseRef := newPhase;
                prevValueRef := st.(prevValueRef) |}
        else st in
      let st :=
        {| evaluation := st.(evaluation); phase := st.(phase);
           landmarks := st.(landmarks);
           prevPhaseRef := st.(prevPhaseRef);
           prevValueRef := hipHeight |} in
      match SquatRules.evaluateSquatForm (Some detectedLandmarks) newPhase with
      | TypeError => st
      | Ok result =>
        {| evaluation := result; phase := st.(phase);
           landmarks := st.(landmarks);
           prevPhaseRef := st.(prevPhaseRef);
           prevValueRef := st.(prevValueRef) |}
      end
    end
  | _ => st
  end.

(** The block for [exerciseType === 'pushup']. *)
Definition processPushup (results : DetectedPoses)
    (st : Detector PushupRules.PUSHUP_PHASES)
  : Detector PushupRules.PUSHUP_PHASES :=
  match results with
  | Some (detectedLandmarks :: _) =>
    let st :=
      {| evaluation := st.(evaluation); phase := st.(phase);
         landmarks := Some detectedLandmarks;
         prevPhaseRef := st.(prevPhaseRef);
         prevValueRef := st.(prevValueRef) |} in
    match PushupRules.determinePushupPhase (Some detectedLandmarks)
            st.(prevPhaseRef) st.(prevValueRef) with
    | TypeError => st
    | Ok r =>
      let newPhase := r.(PushupRules.phase) in
      let elbowAngle := r.(PushupRules.elbowAngle) in
      let st :=
        if negb (PushupRules.phase_eqb newPhase st.(prevPhaseRef))
        then {| evaluation := st.(evaluation); phase := newPhase;
                landmarks := st.(landmarks);
                prevPhaseRef := newPhase;
                prevValueRef := st.(prevValueRef) |}
        else st in
      let st :=
        {| evaluation := st.(evaluation); phase := st.(phase);
           landmarks := st.(landmarks);
           prevPhaseRef := st.(prevPhaseRef);
           prevValueRef := elbowAngle |} in
      match PushupRules.evaluatePushupForm (Some detectedLandmarks) newPhase
      with
      | TypeError => st
      | Ok result =>
        {| evaluation := result; phase := st.(phase);
           landmarks := st.(landmarks);
           prevPhaseRef := st.(prevPhaseRef);
           prevValueRef := st.(prevValueRef) |}
      end
    end
  | _ => st
  end.

(** The loop: one block per detection, in order. *)
Definition runSquat (detections : list DetectedPoses)
    (st : Detector SquatRules.SQUAT_PHASES)
  : Detector SquatRules.SQUAT_PHASES :=
  fold_left (fun st results => processSquat results st) detections st.

Definition runPushup (detections : list DetectedPoses)
    (st : Detector PushupRules.PUSHUP_PHASES)
  : Detector PushupRules.PUSHUP_PHASES :=
  fold_left (fun st results => processPushup results st) detections st.

End PoseDetector.

(** ** Vocabulary of the properties *)

Import PoseUtils.

(** [a < b] and [a <= b] between two numbers, as propositions; neither
    holds when a side is [NaN]. *)
Definition num_lt (a b : num) : Prop :=
  match a, b with
  | Num r, Num s => (r < s)%R
  | _, _ => False
  end.

Definition num_le (a b : num) : Prop :=
  match a, b with
  | Num r, Num s => (r <= s)%R
  | _, _ => False
  end.

(** The point an array holds for a name. *)
Definition landmark (l : list Point) (name : LandmarkName) : option Point :=
  nth_error l (landmarkIndices name).

Arguments landmark : simpl never.

(** A landmark that is absent, or whose visibility is at most [0.5]. *)
Definition hidden (l : list Point) (name : LandmarkName) : Prop :=
  match landmark l name with
  | None => True
  | Some p => num_le p.(visibility) (Num 0.5)
  end.

(** A landmark that is present with a visibility above [0.5]. *)
Definition shown (l : list Point) (name : LandmarkName) : Prop :=
  match landmark l name with
  | None => False
  | Some p => num_lt (Num 0.5) p.(visibility)
  end.

(** The landmarks each function requires. *)
Definition squatPhaseLandmarks : list LandmarkName :=
  [leftHip; rightHip; leftKnee; rightKnee; leftAnkle; rightAnkle].

Definition squatFormLandmarks : list LandmarkName :=
  [leftShoulder; rightShoulder; leftHip; rightHip;
   leftKnee; rightKnee; leftAnkle; rightAnkle].

Definition pushupPhaseLandmarks : list LandmarkName :=
  [leftShoulder; rightShoulder; leftElbow; rightElbow; leftWrist; rightWrist].

Definition pushupFormLandmarks : list LandmarkName :=
  [leftShoulder; rightShoulder; leftElbow; rightElbow;
   leftWrist; rightWrist; leftHip; rightHip].

(** A frame that is [null], empty, or in which one of the [required]
    landmarks is hidden. *)
Definition unusable (required : list LandmarkName) (landmarks : Landmarks)
  : Prop :=
  match landmarks with
  | None => True
  | Some [] => True
  | Some l => exists name, In name required /\ hidden l name
  end.

(** The 3D angle at joint [b] of an array, when the three landmarks are
    present. *)
Definition jointAngle (l : list Point) (a b c : LandmarkName) : option num :=
  match landmark l a, landmark l b, landmark l c with
  | Some pa, Some pb, Some pc => Some (calculate3DAngle pa pb pc)
  | _, _, _ => None
  end.

(** The two measurements of the squat classifier: the mean of the knee
    angles and the mean of the hip heights. *)
Definition avgKneeAngle (l : list Point) : option num :=
  match jointAngle l leftHip leftKnee leftAnkle,
        jointAngle l rightHip rightKnee rightAnkle with
  | Some lk, Some rk => Some ((lk + rk) / Num 2)%num
  | _, _ => None
  end.

Definition avgHipHeight (l : list Point) : option num :=
  match landmark l leftHip, landmark l rightHip with
  | Some lh, Some rh => Some ((lh.(y) + rh.(y)) / Num 2)%num
  | _, _ => None
  end.

(** The measurement of the push-up classifier: the mean of the elbow
    angles. *)
Definition avgElbowAngle (l : list Point) : option num :=
  match jointAngle l leftShoulder leftElbow leftWrist,
        jointAngle l rightShoulder rightElbow rightWrist with
  | Some le, Some re => Some ((le + re) / Num 2)%num
  | _, _ => None
  end.

(** The phase [determineSquatPhase] decides on a usable frame, as a function
    of its two measurements and of the previous phase and hip height. *)
Definition squatTransition (avgKneeAngle hipHeight : num)
    (prevPhase : SquatRules.SQUAT_PHASES) (prevHipHeight : nullable)
  : SquatRules.SQUAT_PHASES :=
  let phase := prevPhase in
  let phase :=
    if (avgKneeAngle >? Num 160)%num then SquatRules.STANDING
    else if ((avgKneeAngle <? Num 110)
             && (hipHeight >? or_else prevHipHeight (Num 0)))%num
         then SquatRules.DESCENDING
    else if ((avgKneeAngle <? Num 110)
             && (hipHeight <? or_else prevHipHeight (Num 1)))%num
         then SquatRules.ASCENDING
    else phase in
  if SquatRules.phase_eqb phase SquatRules.DESCENDING
     && SquatRules.phase_eqb prevPhase SquatRules.DESCENDING
     && (hipHeight <? or_else prevHipHeight (Num 1))%num
  then SquatRules.BOTTOM else phase.

(** The phase [determinePushupPhase] decides on a usable frame, as a
    function of its measurement and of the previous phase and elbow
    angle. *)
Definition pushupTransition (avgElbowAngle : num)
    (prevPhase : PushupRules.PUSHUP_PHASES) (prevElbowAngle : nullable)
  : PushupRules.PUSHUP_PHASES :=
  let phase := prevPhase in
  let phase :=
    if (avgElbowAngle >? Num 150)%num then PushupRules.TOP
    else if ((avgElbowAngle <? Num 120)
             && (is_null prevElbowAngle
                 || (avgElbowAngle <? ToNumber prevElbowAngle)))%num
         then PushupRules.DESCENDING
    else if ((avgElbowAngle <? Num 120)
             && (avgElbowAngle >? ToNumber prevElbowAngle))%num
         then PushupRules.ASCENDING
    else phase in
  if PushupRules.phase_eqb phase PushupRules.DESCENDING
     && PushupRules.phase_eqb prevPhase PushupRules.DESCENDING
     && (avgElbowAngle >? ToNumber prevElbowAngle)%num
  then PushupRules.BOTTOM else phase.

(** All the landmarks of a list are present and above the threshold. *)
Definition allShown (l : list Point) (names : list LandmarkName) : Prop :=
  forall name, In name names -> shown l name.

(** A number that is not [NaN], and a point whose coordinates are such. *)
Definition finite (a : num) : Prop := exists r, a = Num r.

Definition finitePoint (p : Point) : Prop :=
  finite p.(x) /\ finite p.(y) /\ finite p.(z).

(** *** Test poses *)

(** A fully visible point with real coordinates. *)
Definition pt (u v w : R) : Point :=
  {| x := Num u; y := Num v; z := Num w; visibility := Num 1 |}.

(** A frame of seventeen visible points in which both legs are bent at
    [deg] degrees at the knee and both hips are at height [h]. *)
Definition legFrame (deg h : R) : list Point :=
  let t := (deg * PI / 180)%R in
  let o := pt 0 0 0 in
  [ o; o; o; o; o; o; o; o; o; o; o;
    pt (cos t) h (sin t); pt (cos t) h (sin t);
    pt 0 h 0; pt 0 h 0;
    pt 1 h 0; pt 1 h 0 ].

(** A frame of seventeen visible points in which both arms are bent at
    [deg] degrees at the elbow. *)
Definition armFrame (deg : R) : list Point :=
  let t := (deg * PI / 180)%R in
  let o := pt 0 0 0 in
  [ o; o; o; o; o;
    pt (cos t) 0 (sin t); pt (cos t) 0 (sin t);
    pt 0 0 0; pt 0 0 0;
    pt 1 0 0; pt 1 0 0;
    o; o; o; o; o; o ].

(** The frame [legFrame deg h] with the left knee at visibility [0.5]. *)
Definition dimKneeFrame (deg h : R) : list Point :=
  let t := (deg * PI / 180)%R in
  let o := pt 0 0 0 in
  [ o; o; o; o; o; o; o; o; o; o; o;
    pt (cos t) h (sin t); pt (cos t) h (sin t);
    {| x := Num 0; y := Num h; z := Num 0; visibility := Num 0.5 |}; pt 0 h 0;
    pt 1 h 0; pt 1 h 0 ].

(** A frame cut after the elbows: nine visible points, no wrist and nothing
    below. *)
Definition upperBodyFrame : list Point :=
  let o := pt 0 0 0 in
  [ o; o; o; o; o; o; o; o; o ].

(** *** Further vocabulary: geometry, reports and the frame loop *)

(** The squared length of a vector and the dot product of two vectors. *)
Definition sq3 (u v w : R) : R := (u * u + v * v + w * w)%R.

Definition dot3 (u1 u2 u3 v1 v2 v3 : R) : R :=
  (u1 * v1 + u2 * v2 + u3 * v3)%R.



(** [l] is [l'] with some elements left out, the order kept. *)
Inductive subseq {A : Type} : list A -> list A -> Prop :=
| subseq_nil : subseq [] []
| subseq_skip (a : A) (l l' : list A) : subseq l l' -> subseq l (a :: l')
| subseq_keep (a : A) (l l' : list A) :
    subseq l l' -> subseq (a :: l) (a :: l').

(** The issues each phase can raise, in the order of its checks; the
    push-up lists leave out the piking issue. *)
Definition squatChecklist (phase : SquatRules.SQUAT_PHASES) : list string :=
  match phase with
  | SquatRules.BOTTOM =>
    [ "Knees not bent enough"; "Knees bent too much"; "Hips not bent enough";
      "Hips bent too much"; "Back leaning too far forward";
      "Knees too far forward of toes"; "Knees not aligned with toes" ]
  | SquatRules.DESCENDING | SquatRules.ASCENDING =>
    [ "Back leaning too far forward"; "Knees not aligned with toes" ]
  | SquatRules.STANDING =>
    [ "Not fully standing between reps"; "Not standing upright between reps" ]
  end%string.

Definition pushupChecklist (phase : PushupRules.PUSHUP_PHASES) : list string :=
  match phase with
  | PushupRules.BOTTOM =>
    [ "Not going deep enough"; "Elbows bent too much";
      "Back sagging too much"; "Neck not in neutral position" ]
  | PushupRules.TOP =>
    [ "Arms not fully extended at top"; "Back sagging too much" ]
  | PushupRules.DESCENDING | PushupRules.ASCENDING =>
    [ "Back sagging too much"; "Neck not in neutral position" ]
  end%string.

(** A list of issues that is one of the two early messages or follows a
    checklist, and names no issue twice. *)
Definition issueReport (checklist issues0 : list string) : Prop :=
  (issues0 = ["No landmarks detected"%string]
   \/ issues0 = ["Some key landmarks not visible"%string]
   \/ subseq issues0 checklist)
  /\ NoDup issues0.

(** A value that is [NaN] or a number of degrees between 0 and 180. *)
Definition degrees (a : num) : Prop :=
  a = NaN \/ exists r, a = Num r /\ (0 <= r <= 180)%R.

(** An [angles] property that is absent, or has exactly the [keys], in
    order, each bound to [degrees]. *)
Definition anglesReport (keys : list string)
    (o : option (list (string * num))) : Prop :=
  match o with
  | None => True
  | Some l => map fst l = keys /\ Forall (fun kv => degrees (snd kv)) l
  end.

(** The midpoint of two landmarks of an array. *)
Definition midOf (l : list Point) (a b : LandmarkName) : option Point :=
  match landmark l a, landmark l b with
  | Some p, Some q => Some (getMidpoint p q)
  | _, _ => None
  end.

(** A frame of seventeen visible points with both shoulders at [(sx, sy)]
    and both hips at [(hx, hy)]. *)
Definition torsoFrame (sx sy hx hy : R) : list Point :=
  let o := pt 0 0 0 in
  [ o; o; o; o; o;
    pt sx sy 0; pt sx sy 0;
    o; o; o; o;
    pt hx hy 0; pt hx hy 0;
    o; o; o; o ].

(** The phase shown is the phase held in the ref. *)
Definition synced {P : Type} (st : PoseDetector.Detector P) : Prop :=
  st.(PoseDetector.phase) = st.(PoseDetector.prevPhaseRef).

(** What the next block reads of a state: the phase shown and the two
    refs. *)
Definition refs {P : Type} (st : PoseDetector.Detector P) : P * P * nullable :=
  (st.(PoseDetector.phase), st.(PoseDetector.prevPhaseRef),
   st.(PoseDetector.prevValueRef)).

(** An evaluation whose flag tells whether it lists no issue. *)
Definition consistent (e : Evaluation) : Prop :=
  e.(isCorrect) = true <-> e.(issues) = [].

(** A detection the classifier skips: no pose, or a first pose that is
    unusable for it. *)
Definition skipped (required : list LandmarkName)
    (results : PoseDetector.DetectedPoses) : Prop :=
  match results with
  | Some (l :: _) => unusable required (Some l)
  | _ => True
  end.

(** Decides the real comparisons left in a goal about numbers. *)
Ltac real_cases :=
  repeat match goal with
  | |- context [Rlt_dec ?a ?b] => destruct (Rlt_dec a b); try lra
  | |- context [Req_dec_T ?a ?b] => destruct (Req_dec_T a b); try lra
  | H : context [Rlt_dec ?a ?b] |- _ => destruct (Rlt_dec a b); try lra
  | H : context [Req_dec_T ?a ?b] |- _ => destruct (Req_dec_T a b); try lra
  end.

(** ** Numbers: comparison lemmas *)

Section NumFacts.

Local Open Scope R_scope.

Lemma gt_true_iff (a b : num) : (a >? b)%num = true <-> num_lt b a.
Proof.
  destruct a as [|r], b as [|s]; simpl; try (split; [discriminate | tauto]).
  destruct (Rlt_dec s r); split; intros; auto; try discriminate; contradiction.
Qed.

Lemma lt_true_iff (a b : num) : (a <? b)%num = true <-> num_lt a b.
Proof. unfold lt. apply gt_true_iff. Qed.

Lemma gt_false_of_le (a b : num) : num_le a b -> (a >? b)%num = false.
Proof.
  destruct a as [|r], b as [|s]; simpl; try tauto.
  intros H. destruct (Rlt_dec s r); [lra | reflexivity].
Qed.

Lemma gt_irrefl (a : num) : (a >? a)%num = false.
Proof.
  destruct a as [|r]; simpl; [reflexivity|].
  destruct (Rlt_dec r r); [lra | reflexivity].
Qed.

End NumFacts.

(** ** Visibility *)

Lemma isPointVisible_hidden (l : list Point) (name : LandmarkName) :
  hidden l name -> isPointVisible (landmark l name) (Num 0.5) = false.
Proof.
  unfold hidden.
  destruct (landmark l name) as [p|]; simpl; [|reflexivity].
  apply gt_false_of_le.
Qed.

Lemma isPointVisible_shown (l : list Point) (name : LandmarkName) :
  shown l name <-> isPointVisible (landmark l name) (Num 0.5) = true.
Proof.
  unfold shown.
  destruct (landmark l name) as [p|]; simpl.
  - symmetry. apply gt_true_iff.
  - split; [tauto | discriminate].
Qed.

Lemma isPointVisible_present (point : option Point) (t : num) :
  isPointVisible point t = true -> exists p, point = Some p.
Proof. destruct point as [p|]; [eauto | discriminate]. Qed.

(** C8: [isPointVisible(p, t)] holds exactly when [p] exists and its
    visibility is strictly greater than [t]; a point whose visibility equals
    the threshold is not visible, and so is a point at the default [0.5]. *)
Theorem isPointVisible_strict :
  (forall (point : option Point) (t : num),
      isPointVisible point t = true <->
      exists p, point = Some p /\ num_lt t p.(visibility))
  /\ (forall p : Point, isPointVisible (Some p) p.(visibility) = false)
  /\ (forall u v w : num,
        isPointVisible (Some (mkPoint u v w (Num 0.5))) defaultMinConfidence
        = false).
Proof.
  split; [|split].
  - intros [p|] t; simpl.
    + rewrite gt_true_iff. split.
      * intros H. exists p. split; [reflexivity | exact H].
      * intros (q & Hq & H). injection Hq as <-. exact H.
    + split; [discriminate|]. intros (q & Hq & _). discriminate.
  - intros p. simpl. apply gt_irrefl.
  - intros u v w. unfold isPointVisible, defaultMinConfidence.
    apply gt_irrefl.
Qed.

(** ** Frames that are skipped *)

Lemma getNamedLandmarks_cons (p : Point) (l : list Point) :
  getNamedLandmarks (Some (p :: l)) = Some (landmark (p :: l)).
Proof. reflexivity. Qed.

(** Rewrites the visibility test of a hidden landmark and closes the goal
    when a disjunction of tests is then true. *)
Ltac skip_hidden H :=
  apply isPointVisible_hidden in H;
  unfold defaultMinConfidence,
    SquatRules.THRESHOLDS.CONFIDENCE_THRESHOLD,
    PushupRules.THRESHOLDS.CONFIDENCE_THRESHOLD;
  cbn [existsb];
  rewrite H; cbn [negb orb];
  rewrite ?orb_true_r; reflexivity.

(** C4: when the frame is absent or empty, or when one of the six landmarks
    of the classifier is absent or has a visibility of at most [0.5],
    [determineSquatPhase] and [determinePushupPhase] return the previous
    phase and the previous metric unchanged. *)
Theorem phase_skips_unusable_frame (landmarks : Landmarks) :
  (unusable squatPhaseLandmarks landmarks ->
   forall prevPhase prevHipHeight,
     SquatRules.determineSquatPhase landmarks prevPhase prevHipHeight
     = Ok {| SquatRules.phase := prevPhase;
             SquatRules.hipHeight := prevHipHeight |})
  /\ (unusable pushupPhaseLandmarks landmarks ->
      forall prevPhase prevElbowAngle,
        PushupRules.determinePushupPhase landmarks prevPhase prevElbowAngle
        = Ok {| PushupRules.phase := prevPhase;
                PushupRules.elbowAngle := prevElbowAngle |}).
Proof.
  split; intros H prevPhase prev.
  - destruct landmarks as [[|p l]|]; try reflexivity.
    destruct H as (name & Hin & Hhid).
    unfold SquatRules.determineSquatPhase.
    rewrite getNamedLandmarks_cons.
    simpl in Hin.
    destruct Hin as [<-|[<-|[<-|[<-|[<-|[<-|[]]]]]]]; skip_hidden Hhid.
  - destruct landmarks as [[|p l]|]; try reflexivity.
    destruct H as (name & Hin & Hhid).
    unfold PushupRules.determinePushupPhase.
    rewrite getNamedLandmarks_cons.
    simpl in Hin.
    destruct Hin as [<-|[<-|[<-|[<-|[<-|[<-|[]]]]]]]; skip_hidden Hhid.
Qed.

(** A frame whose left knee has visibility [0.5] exactly is skipped by the
    squat classifier, and a frame without wrists by the push-up one. *)
Lemma phase_skips_unusable_frame_witness :
  SquatRules.determineSquatPhase (Some (dimKneeFrame 100 0.5))
    SquatRules.DESCENDING (Some (Num 0.4))
  = Ok {| SquatRules.phase := SquatRules.DESCENDING;
          SquatRules.hipHeight := Some (Num 0.4) |}
  /\ PushupRules.determinePushupPhase (Some upperBodyFrame)
       PushupRules.ASCENDING (Some (Num 95))
     = Ok {| PushupRules.phase := PushupRules.ASCENDING;
             PushupRules.elbowAngle := Some (Num 95) |}.
Proof.
  split.
  - apply (proj1 (phase_skips_unusable_frame (Some (dimKneeFrame 100 0.5)))).
    exists leftKnee. split; [simpl; tauto|].
    unfold hidden, landmark. simpl. lra.
  - apply (proj2 (phase_skips_unusable_frame (Some upperBodyFrame))).
    exists leftWrist. split; [simpl; tauto | exact I].
Defined.

(** C3: on a non-empty frame in which one of the eight landmarks of the
    evaluator is absent or has a visibility of at most [0.5],
    [evaluateSquatForm] and [evaluatePushupForm] return exactly
    [{isCorrect: false, issues: ["Some key landmarks not visible"]}], without
    an [angles] property. *)
Theorem form_rejects_hidden_landmark (l : list Point) :
  l <> [] ->
  ((exists name, In name squatFormLandmarks /\ hidden l name) ->
   forall phase,
     SquatRules.evaluateSquatForm (Some l) phase
     = Ok {| isCorrect := false;
             issues := ["Some key landmarks not visible"%string];
             angles := None |})
  /\ ((exists name, In name pushupFormLandmarks /\ hidden l name) ->
      forall phase,
        PushupRules.evaluatePushupForm (Some l) phase
        = Ok {| isCorrect := false;
                issues := ["Some key landmarks not visible"%string];
                angles := None |}).
Proof.
  destruct l as [|p l]; [congruence|]. intros _.
  split; intros (name & Hin & Hhid) phase.
  - unfold SquatRules.evaluateSquatForm.
    rewrite getNamedLandmarks_cons.
    simpl in Hin.
    destruct Hin as [<-|[<-|[<-|[<-|[<-|[<-|[<-|[<-|[]]]]]]]]];
      skip_hidden Hhid.
  - unfold PushupRules.evaluatePushupForm.
    rewrite getNamedLandmarks_cons.
    simpl in Hin.
    destruct Hin as [<-|[<-|[<-|[<-|[<-|[<-|[<-|[<-|[]]]]]]]]];
      skip_hidden Hhid.
Qed.

Lemma dimKneeFrame_hidden (deg h : R) :
  hidden (dimKneeFrame deg h) leftKnee.
Proof. unfold hidden, landmark. simpl. lra. Qed.

Lemma upperBodyFrame_hidden : hidden upperBodyFrame leftWrist.
Proof. exact I. Qed.

(** A frame whose left knee has visibility [0.5] exactly, and a frame
    without wrists. *)
Lemma form_rejects_hidden_landmark_witness :
  SquatRules.evaluateSquatForm (Some (dimKneeFrame 100 0.5))
    SquatRules.BOTTOM
  = Ok {| isCorrect := false;
          issues := ["Some key landmarks not visible"%string];
          angles := None |}
  /\ PushupRules.evaluatePushupForm (Some upperBodyFrame) PushupRules.TOP
     = Ok {| isCorrect := false;
             issues := ["Some key landmarks not visible"%string];
             angles := None |}.
Proof.
  split.
  - apply (proj1 (form_rejects_hidden_landmark (dimKneeFrame 100 0.5)
                    ltac:(discriminate))).
    exists leftKnee. split; [simpl; tauto | apply dimKneeFrame_hidden].
  - apply (proj2 (form_rejects_hidden_landmark upperBodyFrame
                    ltac:(discriminate))).
    exists leftWrist. split; [simpl; tauto | apply upperBodyFrame_hidden].
Defined.

(** ** The classifiers on usable frames *)

(** Splits the tests of the visibility gate; the goals in which a test
    fails are closed by [tac]. *)
Ltac split_gate tac :=
  repeat match goal with
  | |- context [isPointVisible (landmark ?l ?n) ?t] =>
    let E := fresh "Evis" in
    destruct (isPointVisible (landmark l n) t) eqn:E;
    cbn [negb orb existsb]; [|solve [tac]]
  end.

(** Names the points of the landmarks that passed the gate. *)
Ltac name_points :=
  repeat match goal with
  | E : isPointVisible (landmark ?l ?n) ?t = true |- _ =>
    let q := fresh "q" in
    let Eq := fresh "Elm" in
    destruct (isPointVisible_present _ _ E) as [q Eq];
    apply isPointVisible_shown in E;
    revert E
  end;
  intros.

Lemma allShown_intro (l : list Point) (names : list LandmarkName) :
  Forall (shown l) names -> allShown l names.
Proof. intros H name Hin. rewrite Forall_forall in H. auto. Qed.

(** [determineSquatPhase] either skips the frame, or measures it and
    applies [squatTransition]. *)
Lemma determineSquatPhase_cases (landmarks : Landmarks)
    (prevPhase : SquatRules.SQUAT_PHASES) (prevHipHeight : nullable) :
  SquatRules.determineSquatPhase landmarks prevPhase prevHipHeight
  = Ok {| SquatRules.phase := prevPhase;
          SquatRules.hipHeight := prevHipHeight |}
  \/ exists l a h,
       landmarks = Some l
       /\ allShown l squatPhaseLandmarks
       /\ avgKneeAngle l = Some a
       /\ avgHipHeight l = Some h
       /\ SquatRules.determineSquatPhase landmarks prevPhase prevHipHeight
          = Ok {| SquatRules.phase :=
                    squatTransition a h prevPhase prevHipHeight;
                  SquatRules.hipHeight := Some h |}.
Proof.
  destruct landmarks as [[|p l]|]; try (left; reflexivity).
  unfold SquatRules.determineSquatPhase.
  rewrite getNamedLandmarks_cons.
  unfold defaultMinConfidence.
  split_gate ltac:(left; reflexivity).
  right. name_points. exists (p :: l).
  unfold avgKneeAngle, avgHipHeight, jointAngle.
  rewrite Elm, Elm0, Elm1, Elm2, Elm3, Elm4.
  do 2 eexists. split; [reflexivity|]. split.
  - apply allShown_intro. repeat constructor; assumption.
  - split; [reflexivity|]. split; reflexivity.
Qed.

(** [determinePushupPhase] either skips the frame, or measures it and
    applies [pushupTransition]. *)
Lemma determinePushupPhase_cases (landmarks : Landmarks)
    (prevPhase : PushupRules.PUSHUP_PHASES) (prevElbowAngle : nullable) :
  PushupRules.determinePushupPhase landmarks prevPhase prevElbowAngle
  = Ok {| PushupRules.phase := prevPhase;
          PushupRules.elbowAngle := prevElbowAngle |}
  \/ exists l a,
       landmarks = Some l
       /\ allShown l pushupPhaseLandmarks
       /\ avgElbowAngle l = Some a
       /\ PushupRules.determinePushupPhase landmarks prevPhase prevElbowAngle
          = Ok {| PushupRules.phase :=
                    pushupTransition a prevPhase prevElbowAngle;
                  PushupRules.elbowAngle := Some a |}.
Proof.
  destruct landmarks as [[|p l]|]; try (left; reflexivity).
  unfold PushupRules.determinePushupPhase.
  rewrite getNamedLandmarks_cons.
  unfold defaultMinConfidence.
  split_gate ltac:(left; reflexivity).
  right. name_points. exists (p :: l).
  unfold avgElbowAngle, jointAngle.
  rewrite Elm, Elm0, Elm1, Elm2, Elm3, Elm4.
  eexists. split; [reflexivity|]. split.
  - apply allShown_intro. repeat constructor; assumption.
  - split; reflexivity.
Qed.

Lemma allShown_nonempty (names : list LandmarkName) (name : LandmarkName) :
  In name names -> ~ allShown [] names.
Proof.
  intros Hin H. specialize (H name Hin).
  unfold shown, landmark in H. destruct (landmarkIndices name); exact H.
Qed.

(** Passes the visibility gate of a frame whose landmarks are shown by
    [H], and names the points that the code then reads. *)
Ltac pass_gate H :=
  unfold defaultMinConfidence,
    SquatRules.THRESHOLDS.CONFIDENCE_THRESHOLD,
    PushupRules.THRESHOLDS.CONFIDENCE_THRESHOLD;
  cbn [existsb];
  repeat match goal with
  | |- context [isPointVisible (landmark ?l ?n) ?t] =>
    rewrite (proj1 (isPointVisible_shown l n)) by (apply H; simpl; tauto)
  end;
  cbn [negb orb];
  repeat match goal with
  | |- context [deref (landmark ?l ?n)] =>
    let E := fresh "E" in
    let q := fresh "q" in
    pose proof (H n ltac:(simpl; tauto)) as E;
    unfold shown in E;
    destruct (landmark l n) as [q|]; [clear E | contradiction]
  end;
  cbn [deref bind].

(** On a frame whose six leg landmarks are shown, [determineSquatPhase]
    returns the phase of [squatTransition] and the new hip height. *)
Lemma determineSquatPhase_usable (l : list Point)
    (prevPhase : SquatRules.SQUAT_PHASES) (prevHipHeight : nullable) :
  allShown l squatPhaseLandmarks ->
  exists a h,
    avgKneeAngle l = Some a
    /\ avgHipHeight l = Some h
    /\ SquatRules.determineSquatPhase (Some l) prevPhase prevHipHeight
       = Ok {| SquatRules.phase := squatTransition a h prevPhase prevHipHeight;
               SquatRules.hipHeight := Some h |}.
Proof.
  intros H. destruct l as [|p l].
  - exfalso.
    apply (allShown_nonempty squatPhaseLandmarks leftHip); simpl; auto.
  - unfold SquatRules.determineSquatPhase, avgKneeAngle, avgHipHeight,
      jointAngle.
    rewrite getNamedLandmarks_cons.
    pass_gate H.
    do 2 eexists. repeat split; reflexivity.
Qed.

(** On a frame whose six arm landmarks are shown, [determinePushupPhase]
    returns the phase of [pushupTransition] and the new elbow angle. *)
Lemma determinePushupPhase_usable (l : list Point)
    (prevPhase : PushupRules.PUSHUP_PHASES) (prevElbowAngle : nullable) :
  allShown l pushupPhaseLandmarks ->
  exists a,
    avgElbowAngle l = Some a
    /\ PushupRules.determinePushupPhase (Some l) prevPhase prevElbowAngle
       = Ok {| PushupRules.phase := pushupTransition a prevPhase prevElbowAngle;
               PushupRules.elbowAngle := Some a |}.
Proof.
  intros H. destruct l as [|p l].
  - exfalso.
    apply (allShown_nonempty pushupPhaseLandmarks leftElbow); simpl; auto.
  - unfold PushupRules.determinePushupPhase, avgElbowAngle, jointAngle.
    rewrite getNamedLandmarks_cons.
    pass_gate H.
    eexists. repeat split; reflexivity.
Qed.

(** ** Test poses: their measurements *)

Section TestPoses.

Local Open Scope R_scope.

(** The angle at the vertex of the triangle [(cos t, h, sin t)], [(0, h, 0)],
    [(1, h, 0)] is [t], in degrees. *)
Lemma calculate3DAngle_bent (t h : R) :
  0 <= t <= PI ->
  calculate3DAngle (pt (cos t) h (sin t)) (pt 0 h 0) (pt 1 h 0)
  = Num (t * 180 / PI).
Proof.
  intros Ht.
  unfold calculate3DAngle, xyz, pt. cbn [x y z].
  cbn [sub mul add lift2].
  replace ((cos t - 0) * (cos t - 0) + (h - h) * (h - h)
           + (sin t - 0) * (sin t - 0)) with 1.
  2:{ pose proof (sin2_cos2 t) as E. unfold Rsqr in E. lra. }
  replace ((1 - 0) * (1 - 0) + (h - h) * (h - h) + (0 - 0) * (0 - 0))
    with 1 by lra.
  replace ((cos t - 0) * (1 - 0) + (h - h) * (h - h) + (sin t - 0) * (0 - 0))
    with (cos t) by lra.
  unfold Math_sqrt. destruct (Rlt_dec 1 0); [lra|].
  rewrite sqrt_1. cbn [mul lift2 div].
  destruct (Req_dec_T (1 * 1) 0); [lra|].
  replace (cos t / (1 * 1)) with (cos t) by field.
  unfold Math_acos. pose proof (COS_bound t) as [Hc1 Hc2].
  destruct (Rlt_dec (cos t) (-1)); [lra|].
  destruct (Rlt_dec 1 (cos t)); [lra|].
  rewrite acos_cos by lra.
  unfold Math_PI. cbn [mul lift2 div].
  destruct (Req_dec_T PI 0) as [E|_]; [pose proof PI_RGT_0; lra|].
  reflexivity.
Qed.

Lemma calculate3DAngle_degrees (deg h : R) :
  0 <= deg <= 180 ->
  let t := deg * PI / 180 in
  calculate3DAngle (pt (cos t) h (sin t)) (pt 0 h 0) (pt 1 h 0) = Num deg.
Proof.
  intros Hdeg t. pose proof PI_RGT_0 as Hpi.
  rewrite calculate3DAngle_bent.
  - f_equal. unfold t. field. lra.
  - unfold t. split.
    + apply Rmult_le_pos; [|lra]. apply Rmult_le_pos; lra.
    + apply Rmult_le_reg_r with 180; [lra|].
      replace (deg * PI / 180 * 180) with (deg * PI) by field.
      rewrite (Rmult_comm PI). apply Rmult_le_compat_r; lra.
Qed.

Lemma mean_same (r : R) : ((Num r + Num r) / Num 2)%num = Num r.
Proof.
  cbn [add lift2 div]. destruct (Req_dec_T 2 0); [lra|].
  f_equal. field.
Qed.

Lemma legFrame_shown (deg h : R) :
  allShown (legFrame deg h) squatFormLandmarks.
Proof.
  intros name Hin. simpl in Hin.
  destruct Hin as [<-|[<-|[<-|[<-|[<-|[<-|[<-|[<-|[]]]]]]]]];
    unfold shown, landmark; simpl; lra.
Qed.

Lemma legFrame_shown_legs (deg h : R) :
  allShown (legFrame deg h) squatPhaseLandmarks.
Proof.
  intros name Hin. apply legFrame_shown. simpl in *. tauto.
Qed.

Lemma avgKneeAngle_legFrame (deg h : R) :
  0 <= deg <= 180 -> avgKneeAngle (legFrame deg h) = Some (Num deg).
Proof.
  intros Hdeg. unfold avgKneeAngle, jointAngle, landmark, legFrame.
  cbn [nth_error landmarkIndices].
  rewrite (calculate3DAngle_degrees deg h Hdeg), mean_same. reflexivity.
Qed.

Lemma avgHipHeight_legFrame (deg h : R) :
  avgHipHeight (legFrame deg h) = Some (Num h).
Proof.
  unfold avgHipHeight, landmark, legFrame.
  cbn [nth_error landmarkIndices pt y]. rewrite mean_same. reflexivity.
Qed.

Lemma armFrame_shown_arms (deg : R) :
  allShown (armFrame deg) pushupPhaseLandmarks.
Proof.
  intros name Hin. simpl in Hin.
  destruct Hin as [<-|[<-|[<-|[<-|[<-|[<-|[]]]]]]];
    unfold shown, landmark; simpl; lra.
Qed.

Lemma avgElbowAngle_armFrame (deg : R) :
  0 <= deg <= 180 -> avgElbowAngle (armFrame deg) = Some (Num deg).
Proof.
  intros Hdeg. unfold avgElbowAngle, jointAngle, landmark, armFrame.
  cbn [nth_error landmarkIndices].
  rewrite (calculate3DAngle_degrees deg 0 Hdeg), mean_same. reflexivity.
Qed.

(** The classifiers on the test poses. *)
Lemma determineSquatPhase_legFrame (deg h : R)
    (prevPhase : SquatRules.SQUAT_PHASES) (prevHipHeight : nullable) :
  0 <= deg <= 180 ->
  SquatRules.determineSquatPhase (Some (legFrame deg h)) prevPhase
    prevHipHeight
  = Ok {| SquatRules.phase :=
            squatTransition (Num deg) (Num h) prevPhase prevHipHeight;
          SquatRules.hipHeight := Some (Num h) |}.
Proof.
  intros Hdeg.
  destruct (determineSquatPhase_usable (legFrame deg h) prevPhase
              prevHipHeight (legFrame_shown_legs deg h))
    as (a & h' & Ha & Hh & Hrun).
  rewrite avgKneeAngle_legFrame in Ha by exact Hdeg.
  rewrite avgHipHeight_legFrame in Hh.
  injection Ha as <-. injection Hh as <-. exact Hrun.
Qed.

Lemma determinePushupPhase_armFrame (deg : R)
    (prevPhase : PushupRules.PUSHUP_PHASES) (prevElbowAngle : nullable) :
  0 <= deg <= 180 ->
  PushupRules.determinePushupPhase (Some (armFrame deg)) prevPhase
    prevElbowAngle
  = Ok {| PushupRules.phase :=
            pushupTransition (Num deg) prevPhase prevElbowAngle;
          PushupRules.elbowAngle := Some (Num deg) |}.
Proof.
  intros Hdeg.
  destruct (determinePushupPhase_usable (armFrame deg) prevPhase
              prevElbowAngle (armFrame_shown_arms deg))
    as (a & Ha & Hrun).
  rewrite avgElbowAngle_armFrame in Ha by exact Hdeg.
  injection Ha as <-. exact Hrun.
Qed.

End TestPoses.

(** Evaluates a transition on explicit numbers. *)
Ltac eval_transition :=
  unfold squatTransition, pushupTransition;
  repeat progress
    (cbn [gt lt or_else truthy ToNumber is_null andb orb negb
          SquatRules.phase_eqb PushupRules.phase_eqb];
     real_cases);
  try reflexivity.

Lemma squat_descending_band_bottom :
  SquatRules.determineSquatPhase (Some (legFrame 150 0.5))
    SquatRules.DESCENDING (Some (Num 0.6))
  = Ok {| SquatRules.phase := SquatRules.BOTTOM;
          SquatRules.hipHeight := Some (Num 0.5) |}.
Proof.
  rewrite determineSquatPhase_legFrame by lra.
  do 2 f_equal. eval_transition.
Qed.

Lemma pushup_descending_band_bottom :
  PushupRules.determinePushupPhase (Some (armFrame 135))
    PushupRules.DESCENDING (Some (Num 100))
  = Ok {| PushupRules.phase := PushupRules.BOTTOM;
          PushupRules.elbowAngle := Some (Num 135) |}.
Proof.
  rewrite determinePushupPhase_armFrame by lra.
  do 2 f_equal. eval_transition.
Qed.

(** ** The phase transitions *)

Lemma squatTransition_bottom (a h : num) (prevPhase : SquatRules.SQUAT_PHASES)
    (prev : nullable) :
  squatTransition a h prevPhase prev = SquatRules.BOTTOM ->
  prevPhase = SquatRules.BOTTOM \/ prevPhase = SquatRules.DESCENDING.
Proof.
  unfold squatTransition.
  destruct (a >? Num 160)%num, (a <? Num 110)%num,
    (h >? or_else prev (Num 0))%num, (h <? or_else prev (Num 1))%num,
    prevPhase; cbn; intros H; auto; discriminate.
Qed.

Lemma pushupTransition_bottom (a : num)
    (prevPhase : PushupRules.PUSHUP_PHASES) (prev : nullable) :
  pushupTransition a prevPhase prev = PushupRules.BOTTOM ->
  prevPhase = PushupRules.BOTTOM \/ prevPhase = PushupRules.DESCENDING.
Proof.
  unfold pushupTransition.
  destruct (a >? Num 150)%num, (a <? Num 120)%num, (is_null prev),
    (a <? ToNumber prev)%num, (a >? ToNumber prev)%num,
    prevPhase; cbn; intros H; auto; discriminate.
Qed.

(** C2: when [determineSquatPhase] or [determinePushupPhase] returns
    [bottom] and this differs from the previous phase it was given, the
    previous phase was [descending]. *)
Theorem bottom_only_after_descending :
  (forall landmarks prevPhase prevHipHeight r,
      SquatRules.determineSquatPhase landmarks prevPhase prevHipHeight = Ok r ->
      r.(SquatRules.phase) = SquatRules.BOTTOM ->
      r.(SquatRules.phase) <> prevPhase ->
      prevPhase = SquatRules.DESCENDING)
  /\ (forall landmarks prevPhase prevElbowAngle r,
        PushupRules.determinePushupPhase landmarks prevPhase prevElbowAngle
        = Ok r ->
        r.(PushupRules.phase) = PushupRules.BOTTOM ->
        r.(PushupRules.phase) <> prevPhase ->
        prevPhase = PushupRules.DESCENDING).
Proof.
  split.
  - intros landmarks prevPhase prev r Hrun Hbottom Hchange.
    destruct (determineSquatPhase_cases landmarks prevPhase prev)
      as [Hskip | (l & a & h & _ & _ & _ & _ & Hstep)].
    + rewrite Hskip in Hrun. injection Hrun as <-. now elim Hchange.
    + rewrite Hstep in Hrun. injection Hrun as <-. cbn in *.
      destruct (squatTransition_bottom _ _ _ _ Hbottom) as [E|E];
        [|exact E].
      elim Hchange. now rewrite Hbottom, E.
  - intros landmarks prevPhase prev r Hrun Hbottom Hchange.
    destruct (determinePushupPhase_cases landmarks prevPhase prev)
      as [Hskip | (l & a & _ & _ & _ & Hstep)].
    + rewrite Hskip in Hrun. injection Hrun as <-. now elim Hchange.
    + rewrite Hstep in Hrun. injection Hrun as <-. cbn in *.
      destruct (pushupTransition_bottom _ _ _ Hbottom) as [E|E];
        [|exact E].
      elim Hchange. now rewrite Hbottom, E.
Qed.

(** A run of each classifier that turns [descending] into [bottom]. *)
Lemma bottom_only_after_descending_witness :
  (SquatRules.determineSquatPhase (Some (legFrame 150 0.5))
     SquatRules.DESCENDING (Some (Num 0.6))
   = Ok {| SquatRules.phase := SquatRules.BOTTOM;
           SquatRules.hipHeight := Some (Num 0.5) |}
   /\ SquatRules.DESCENDING = SquatRules.DESCENDING)
  /\ (PushupRules.determinePushupPhase (Some (armFrame 135))
        PushupRules.DESCENDING (Some (Num 100))
      = Ok {| PushupRules.phase := PushupRules.BOTTOM;
              PushupRules.elbowAngle := Some (Num 135) |}
      /\ PushupRules.DESCENDING = PushupRules.DESCENDING).
Proof.
  split; split.
  - exact squat_descending_band_bottom.
  - apply (proj1 bottom_only_after_descending
             (Some (legFrame 150 0.5)) SquatRules.DESCENDING
             (Some (Num 0.6)) _ squat_descending_band_bottom).
    + reflexivity.
    + discriminate.
  - exact pushup_descending_band_bottom.
  - apply (proj2 bottom_only_after_descending
             (Some (armFrame 135)) PushupRules.DESCENDING
             (Some (Num 100)) _ pushup_descending_band_bottom).
    + reflexivity.
    + discriminate.
Defined.

(** In the descending branch the promotion to [bottom] needs a falsy
    previous hip height. *)
Lemma squatTransition_recomputed (a h : num) (prev : nullable) :
  num_lt a (Num 110) \/ num_lt (Num 160) a ->
  squatTransition a h SquatRules.DESCENDING prev = SquatRules.BOTTOM ->
  prev = None \/ prev = Some (Num 0) \/ prev = Some NaN.
Proof.
  intros Ha.
  destruct prev as [[|p]|]; auto.
  destruct (Req_dec_T p 0) as [->|Hp]; auto.
  destruct a as [|a]; [destruct Ha as [[]|[]]|].
  cbn in Ha. unfold squatTransition.
  destruct h as [|h];
    cbn [gt lt or_else truthy];
    real_cases; cbn; real_cases; discriminate.
Qed.

Lemma pushupTransition_recomputed (a : num) (prev : nullable) :
  num_lt a (Num 120) \/ num_lt (Num 150) a ->
  pushupTransition a PushupRules.DESCENDING prev = PushupRules.BOTTOM ->
  prev = None.
Proof.
  intros Ha.
  destruct prev as [prev|]; auto.
  destruct a as [|a]; [destruct Ha as [[]|[]]|].
  cbn in Ha. unfold pushupTransition.
  destruct prev as [|p];
    cbn [gt lt ToNumber is_null];
    real_cases; cbn; real_cases; discriminate.
Qed.

Lemma squat_descending_null_bottom :
  SquatRules.determineSquatPhase (Some (legFrame 100 0.5))
    SquatRules.DESCENDING None
  = Ok {| SquatRules.phase := SquatRules.BOTTOM;
          SquatRules.hipHeight := Some (Num 0.5) |}.
Proof.
  rewrite determineSquatPhase_legFrame by lra.
  do 2 f_equal. eval_transition.
Qed.

Lemma pushup_descending_null_bottom :
  PushupRules.determinePushupPhase (Some (armFrame 100))
    PushupRules.DESCENDING None
  = Ok {| PushupRules.phase := PushupRules.BOTTOM;
          PushupRules.elbowAngle := Some (Num 100) |}.
Proof.
  rewrite determinePushupPhase_armFrame by lra.
  do 2 f_equal. eval_transition.
Qed.

(** C10, as the code has it: when the average knee angle is below 110 or
    above 160 degrees, so that the phase is recomputed and not retained,
    [determineSquatPhase] called with the previous phase [descending]
    returns [bottom] only if the previous hip height is [null], [0] or
    [NaN], hence never for a strictly positive one; and when the average
    elbow angle is below 120 or above 150 degrees, [determinePushupPhase]
    called with the previous phase [descending] returns [bottom] only if the
    previous elbow angle is [null]. *)
Theorem promotion_in_descending_branch :
  (forall l a prevHipHeight r,
      avgKneeAngle l = Some a ->
      num_lt a (Num 110) \/ num_lt (Num 160) a ->
      SquatRules.determineSquatPhase (Some l) SquatRules.DESCENDING
        prevHipHeight = Ok r ->
      r.(SquatRules.phase) = SquatRules.BOTTOM ->
      prevHipHeight = None \/ prevHipHeight = Some (Num 0)
      \/ prevHipHeight = Some NaN)
  /\ (forall l a prevElbowAngle r,
        avgElbowAngle l = Some a ->
        num_lt a (Num 120) \/ num_lt (Num 150) a ->
        PushupRules.determinePushupPhase (Some l) PushupRules.DESCENDING
          prevElbowAngle = Ok r ->
        r.(PushupRules.phase) = PushupRules.BOTTOM ->
        prevElbowAngle = None).
Proof.
  split.
  - intros l a prev r Ha Hband Hrun Hbottom.
    destruct (determineSquatPhase_cases (Some l) SquatRules.DESCENDING prev)
      as [Hskip | (l' & a' & h & El & _ & Ha' & _ & Hstep)].
    + rewrite Hskip in Hrun. injection Hrun as <-. discriminate.
    + injection El as <-. rewrite Ha in Ha'. injection Ha' as <-.
      rewrite Hstep in Hrun. injection Hrun as <-.
      exact (squatTransition_recomputed a h prev Hband Hbottom).
  - intros l a prev r Ha Hband Hrun Hbottom.
    destruct (determinePushupPhase_cases (Some l) PushupRules.DESCENDING prev)
      as [Hskip | (l' & a' & El & _ & Ha' & Hstep)].
    + rewrite Hskip in Hrun. injection Hrun as <-. discriminate.
    + injection El as <-. rewrite Ha in Ha'. injection Ha' as <-.
      rewrite Hstep in Hrun. injection Hrun as <-.
      exact (pushupTransition_recomputed a prev Hband Hbottom).
Qed.

(** The promotion does fire on a [null] previous metric: knees (elbows) at
    100 degrees, previous phase [descending]. *)
Lemma promotion_in_descending_branch_witness :
  (SquatRules.determineSquatPhase (Some (legFrame 100 0.5))
     SquatRules.DESCENDING None
   = Ok {| SquatRules.phase := SquatRules.BOTTOM;
           SquatRules.hipHeight := Some (Num 0.5) |}
   /\ (@None num = None \/ None = Some (Num 0) \/ None = Some NaN))
  /\ (PushupRules.determinePushupPhase (Some (armFrame 100))
        PushupRules.DESCENDING None
      = Ok {| PushupRules.phase := PushupRules.BOTTOM;
              PushupRules.elbowAngle := Some (Num 100) |}
      /\ @None num = None).
Proof.
  split; split.
  - exact squat_descending_null_bottom.
  - eapply (proj1 promotion_in_descending_branch (legFrame 100 0.5)
              (Num 100) None).
    + apply avgKneeAngle_legFrame. lra.
    + left. simpl. lra.
    + exact squat_descending_null_bottom.
    + reflexivity.
  - exact pushup_descending_null_bottom.
  - eapply (proj2 promotion_in_descending_branch (armFrame 100)
              (Num 100) None).
    + apply avgElbowAngle_armFrame. lra.
    + left. simpl. lra.
    + exact pushup_descending_null_bottom.
    + reflexivity.
Defined.

(** C10 fails as stated: with a strictly positive previous hip height [0.6],
    the previous phase [descending], knees at 150 degrees and the hips
    lower at [0.5], [determineSquatPhase] returns [bottom]; and with the
    previous elbow angle [100], not [null], and elbows at 135 degrees,
    [determinePushupPhase] returns [bottom]. *)
Lemma bottom_with_positive_metric :
  num_lt (Num 0) (Num 0.6)
  /\ num_lt (Num 0.5) (Num 0.6)
  /\ SquatRules.determineSquatPhase (Some (legFrame 150 0.5))
       SquatRules.DESCENDING (Some (Num 0.6))
     = Ok {| SquatRules.phase := SquatRules.BOTTOM;
             SquatRules.hipHeight := Some (Num 0.5) |}
  /\ PushupRules.determinePushupPhase (Some (armFrame 135))
       PushupRules.DESCENDING (Some (Num 100))
     = Ok {| PushupRules.phase := PushupRules.BOTTOM;
             PushupRules.elbowAngle := Some (Num 135) |}.
Proof.
  split; [simpl; lra|]. split; [simpl; lra|]. split.
  - exact squat_descending_band_bottom.
  - exact pushup_descending_band_bottom.
Qed.

(** ** The turnaround scenario *)

Lemma squatTransition_150_standing (h : num) :
  squatTransition (Num 150) h SquatRules.STANDING None = SquatRules.STANDING.
Proof.
  unfold squatTransition. cbn [gt lt]. real_cases. reflexivity.
Qed.

Lemma squatTransition_100_rising (h1 h2 : num) :
  num_lt h1 h2 ->
  squatTransition (Num 100) h2 SquatRules.STANDING (Some h1)
  = SquatRules.DESCENDING.
Proof.
  destruct h1 as [|h1], h2 as [|h2]; cbn [num_lt]; try tauto. intros H.
  eval_transition.
Qed.

Lemma squatTransition_100_falling (h2 h3 : num) :
  num_lt h3 h2 ->
  squatTransition (Num 100) h3 SquatRules.DESCENDING (Some h2)
  = SquatRules.ASCENDING.
Proof.
  destruct h2 as [|h2], h3 as [|h3]; cbn [num_lt]; try tauto. intros H.
  eval_transition.
Qed.

(** C1, as the code has it: on three consecutive frames whose six leg
    landmarks are visible, whose average knee angles are 150, 100 and 100
    degrees and whose average hip height rises from frame 1 to frame 2 and
    falls from frame 2 to frame 3, threading phase and hip height through
    [determineSquatPhase] from the rest state ([standing], [null]): the
    call on frame 2 returns [descending], and the call on frame 3 returns
    [ascending], not [bottom]. *)
Theorem squat_turnaround_reports_ascending (f1 f2 f3 : list Point)
    (h1 h2 h3 : num) :
  allShown f1 squatPhaseLandmarks ->
  allShown f2 squatPhaseLandmarks ->
  allShown f3 squatPhaseLandmarks ->
  avgKneeAngle f1 = Some (Num 150) ->
  avgKneeAngle f2 = Some (Num 100) ->
  avgKneeAngle f3 = Some (Num 100) ->
  avgHipHeight f1 = Some h1 ->
  avgHipHeight f2 = Some h2 ->
  avgHipHeight f3 = Some h3 ->
  num_lt h1 h2 ->
  num_lt h3 h2 ->
  exists r1 r2 r3,
    SquatRules.determineSquatPhase (Some f1) SquatRules.STANDING None = Ok r1
    /\ SquatRules.determineSquatPhase (Some f2) r1.(SquatRules.phase)
         r1.(SquatRules.hipHeight) = Ok r2
    /\ SquatRules.determineSquatPhase (Some f3) r2.(SquatRules.phase)
         r2.(SquatRules.hipHeight) = Ok r3
    /\ r2.(SquatRules.phase) = SquatRules.DESCENDING
    /\ r3.(SquatRules.phase) = SquatRules.ASCENDING.
Proof.
  intros S1 S2 S3 A1 A2 A3 H1 H2 H3 Hup Hdown.
  destruct (determineSquatPhase_usable f1 SquatRules.STANDING None S1)
    as (a1 & k1 & A1' & H1' & R1).
  rewrite A1 in A1'. injection A1' as <-.
  rewrite H1 in H1'. injection H1' as <-.
  rewrite squatTransition_150_standing in R1.
  destruct (determineSquatPhase_usable f2 SquatRules.STANDING (Some h1) S2)
    as (a2 & k2 & A2' & H2' & R2).
  rewrite A2 in A2'. injection A2' as <-.
  rewrite H2 in H2'. injection H2' as <-.
  rewrite (squatTransition_100_rising h1 h2 Hup) in R2.
  destruct (determineSquatPhase_usable f3 SquatRules.DESCENDING (Some h2) S3)
    as (a3 & k3 & A3' & H3' & R3).
  rewrite A3 in A3'. injection A3' as <-.
  rewrite H3 in H3'. injection H3' as <-.
  rewrite (squatTransition_100_falling h2 h3 Hdown) in R3.
  do 3 eexists.
  split; [exact R1|]. split; [exact R2|]. split; [exact R3|].
  split; reflexivity.
Qed.

(** The scenario on three test poses: knees at 150, 100 and 100 degrees,
    hips at [0.5], [0.6] and [0.55]. *)
Lemma squat_turnaround_witness :
  exists r1 r2 r3,
    SquatRules.determineSquatPhase (Some (legFrame 150 0.5))
      SquatRules.STANDING None = Ok r1
    /\ SquatRules.determineSquatPhase (Some (legFrame 100 0.6))
         r1.(SquatRules.phase) r1.(SquatRules.hipHeight) = Ok r2
    /\ SquatRules.determineSquatPhase (Some (legFrame 100 0.55))
         r2.(SquatRules.phase) r2.(SquatRules.hipHeight) = Ok r3
    /\ r2.(SquatRules.phase) = SquatRules.DESCENDING
    /\ r3.(SquatRules.phase) = SquatRules.ASCENDING.
Proof.
  apply (squat_turnaround_reports_ascending
           (legFrame 150 0.5) (legFrame 100 0.6) (legFrame 100 0.55)
           (Num 0.5) (Num 0.6) (Num 0.55)).
  - apply legFrame_shown_legs.
  - apply legFrame_shown_legs.
  - apply legFrame_shown_legs.
  - apply avgKneeAngle_legFrame. lra.
  - apply avgKneeAngle_legFrame. lra.
  - apply avgKneeAngle_legFrame. lra.
  - apply avgHipHeight_legFrame.
  - apply avgHipHeight_legFrame.
  - apply avgHipHeight_legFrame.
  - simpl. lra.
  - simpl. lra.
Defined.

(** ** The planar angle *)

Section Angle2D.

Local Open Scope R_scope.

Lemma atan2_bound (v u : R) : - PI < atan2 v u <= PI.
Proof.
  pose proof PI_RGT_0 as Hpi.
  pose proof (atan_bound (v / u)) as [Hlo Hhi].
  unfold atan2.
  destruct (Rlt_dec 0 u) as [Hu|Hu]; [lra|].
  destruct (Rlt_dec u 0) as [Hu'|Hu'].
  - destruct (Rlt_dec v 0) as [Hv|Hv].
    + assert (0 < v / u) as Hq.
      { replace (v / u) with ((- v) * / (- u)) by (field; lra).
        apply Rmult_lt_0_compat; [lra|]. apply Rinv_0_lt_compat. lra. }
      pose proof (atan_increasing 0 (v / u) Hq) as Hinc.
      rewrite atan_0 in Hinc. lra.
    + assert (v / u <= 0) as Hq.
      { replace (v / u) with (- (v * / (- u))) by (field; lra).
        assert (0 <= v * / - u); [|lra].
        apply Rmult_le_pos; [lra|]. left. apply Rinv_0_lt_compat. lra. }
      destruct Hq as [Hq|Hq].
      * pose proof (atan_increasing (v / u) 0 Hq) as Hinc.
        rewrite atan_0 in Hinc. lra.
      * rewrite Hq, atan_0. lra.
  - destruct (Rlt_dec 0 v); [lra|]. destruct (Rlt_dec v 0); lra.
Qed.

Lemma degrees_bound (r : R) :
  - (2 * PI) < r < 2 * PI -> Rabs (r * 180 / PI) < 360.
Proof.
  intros [Hlo Hhi]. pose proof PI_RGT_0 as Hpi.
  assert (0 < / PI) as Hinv by (apply Rinv_0_lt_compat; exact Hpi).
  assert (360 = 2 * PI * 180 * / PI) as E by (field; lra).
  assert (r * 180 * / PI < 2 * PI * 180 * / PI) as Hup
    by (apply Rmult_lt_compat_r; [exact Hinv | lra]).
  assert (- (2 * PI) * 180 * / PI < r * 180 * / PI) as Hdown
    by (apply Rmult_lt_compat_r; [exact Hinv | lra]).
  apply Rabs_def1; unfold Rdiv; lra.
Qed.

(** On points with real planar coordinates [calculateAngle] is a number of
    degrees between 0 and 180. *)
Lemma calculateAngle_num (ax ay bx by_ cx cy : R) (az av bz bv cz cv : num) :
  exists r,
    calculateAngle (mkPoint (Num ax) (Num ay) az av)
      (mkPoint (Num bx) (Num by_) bz bv) (mkPoint (Num cx) (Num cy) cz cv)
    = Num r
    /\ 0 <= r <= 180.
Proof.
  unfold calculateAngle. cbn [x y].
  cbn [sub lift2 Math_atan2 mul div Math_PI].
  pose proof PI_RGT_0 as Hpi.
  destruct (Req_dec_T PI 0); [lra|].
  cbn [Math_abs lift1 gt].
  set (rad := atan2 (cy - by_) (cx - bx) - atan2 (ay - by_) (ax - bx)).
  assert (Rabs (rad * 180 / PI) < 360) as Hdeg.
  { apply degrees_bound. unfold rad.
    pose proof (atan2_bound (cy - by_) (cx - bx)).
    pose proof (atan2_bound (ay - by_) (ax - bx)). lra. }
  pose proof (Rabs_pos (rad * 180 / PI)) as Hpos.
  destruct (Rlt_dec 180 (Rabs (rad * 180 / PI))).
  - cbn [sub lift2]. eexists. split; [reflexivity | lra].
  - eexists. split; [reflexivity | lra].
Qed.

(** On any points [calculateAngle] is [NaN] or a number of degrees between
    0 and 180. *)
Lemma calculateAngle_cases (a b c : Point) :
  calculateAngle a b c = NaN
  \/ exists r, calculateAngle a b c = Num r /\ 0 <= r <= 180.
Proof.
  destruct a as [ax ay az av], b as [bx by_ bz bv], c as [cx cy cz cv].
  destruct ax as [|ax], ay as [|ay], bx as [|bx], by_ as [|by_],
    cx as [|cx], cy as [|cy]; try (left; reflexivity).
  right. apply calculateAngle_num.
Qed.

(** [calculateAngle] is never below a negative bound. *)
Lemma calculateAngle_not_below (a b c : Point) (s : R) :
  s <= 0 -> (calculateAngle a b c <? Num s)%num = false.
Proof.
  intros Hs.
  destruct (calculateAngle_cases a b c) as [-> | (r & -> & Hr)];
    [reflexivity|].
  unfold lt. apply gt_false_of_le. simpl. lra.
Qed.

(** C5: for all points [a], [b], [c] with finite coordinates,
    [calculateAngle(a, b, c)] is a number of the closed interval from 0 to
    180 degrees; this also holds when [a] or [c] coincides with [b]. *)
Theorem calculateAngle_range (a b c : Point) :
  finitePoint a -> finitePoint b -> finitePoint c ->
  exists r, calculateAngle a b c = Num r /\ 0 <= r <= 180.
Proof.
  destruct a as [ax ay az av], b as [bx by_ bz bv], c as [cx cy cz cv].
  intros ((rax & Eax) & (ray & Eay) & _) ((rbx & Ebx) & (rby & Eby) & _)
    ((rcx & Ecx) & (rcy & Ecy) & _).
  cbn [x y] in *. subst. apply calculateAngle_num.
Qed.

(** The right angle at the origin between the two axes. *)
Lemma calculateAngle_range_witness :
  exists r,
    calculateAngle (pt 1 0 0) (pt 0 0 0) (pt 0 1 0) = Num r
    /\ 0 <= r <= 180.
Proof.
  apply (calculateAngle_range (pt 1 0 0) (pt 0 0 0) (pt 0 1 0));
    (split; [|split]); eexists; reflexivity.
Defined.

End Angle2D.

(** ** The evaluators *)

Lemma landmark_below (l : list Point) (a b : LandmarkName) (p : Point) :
  landmark l a = Some p ->
  landmarkIndices b <= landmarkIndices a ->
  exists q, landmark l b = Some q.
Proof.
  unfold landmark. intros Ha Hle.
  destruct (nth_error l (landmarkIndices b)) as [q|] eqn:Eb; [eauto|].
  apply nth_error_None in Eb.
  assert (nth_error l (landmarkIndices a) = None) as Hnone
    by (apply nth_error_None; eapply PeanoNat.Nat.le_trans; eassumption).
  congruence.
Qed.

Lemma length_eqb_nil (A : Type) (l : list A) :
  Nat.eqb (List.length l) 0 = true <-> l = [].
Proof. destruct l; simpl; split; intros; congruence. Qed.

Lemma In_push_if (s m : string) (cond : bool) (l : list string) :
  In s (push_if cond m l) <-> (cond = true /\ m = s) \/ In s l.
Proof.
  unfold push_if. destruct cond.
  - rewrite in_app_iff. simpl. intuition.
  - intuition. discriminate.
Qed.

(** The back alignment check of [evaluatePushupForm]: on an angle that
    comes from [calculateAngle] it adds the sagging issue or nothing. *)
Lemma In_back_check (s : string) (a b c : Point) (l : list string) :
  In s (if (calculateAngle a b c >? PushupRules.THRESHOLDS.MAX_BACK_SAG)%num
        then l ++ ["Back sagging too much"%string]
        else if (calculateAngle a b c
                 <? - PushupRules.THRESHOLDS.MAX_BACK_PIKE)%num
        then l ++ ["Hips too high (piking)"%string]
        else l) ->
  "Back sagging too much"%string = s \/ In s l.
Proof.
  unfold PushupRules.THRESHOLDS.MAX_BACK_PIKE.
  cbn [neg lift1].
  rewrite calculateAngle_not_below by lra.
  destruct (_ >? _)%num; [|auto].
  rewrite in_app_iff. simpl. intuition.
Qed.

(** Closes the goals of the evaluators' early returns. *)
Ltac early_return :=
  eexists; split; [reflexivity|]; cbn [isCorrect issues];
  repeat split; try discriminate;
  try (intros [E|[]]; discriminate E).

(** [evaluateSquatForm] always returns, and [isCorrect] tells whether the
    list of issues is empty. *)
Lemma evaluateSquatForm_shape (landmarks : Landmarks)
    (phase : SquatRules.SQUAT_PHASES) :
  exists r,
    SquatRules.evaluateSquatForm landmarks phase = Ok r
    /\ (r.(isCorrect) = true <-> r.(issues) = []).
Proof.
  destruct landmarks as [[|p l]|]; try early_return.
  unfold SquatRules.evaluateSquatForm.
  rewrite getNamedLandmarks_cons.
  unfold SquatRules.THRESHOLDS.CONFIDENCE_THRESHOLD. cbn [existsb].
  split_gate early_return.
  name_points.
  rewrite Elm, Elm0, Elm1, Elm2, Elm3, Elm4, Elm5, Elm6.
  cbn [deref bind].
  eexists. split; [reflexivity|]. cbn [isCorrect issues].
  apply length_eqb_nil.
Qed.

(** [evaluatePushupForm] always returns, [isCorrect] tells whether the list
    of issues is empty, and the piking issue is not in the list. *)
Lemma evaluatePushupForm_shape (landmarks : Landmarks)
    (phase : PushupRules.PUSHUP_PHASES) :
  exists r,
    PushupRules.evaluatePushupForm landmarks phase = Ok r
    /\ (r.(isCorrect) = true <-> r.(issues) = [])
    /\ ~ In "Hips too high (piking)"%string r.(issues).
Proof.
  destruct landmarks as [[|p l]|]; try early_return.
  unfold PushupRules.evaluatePushupForm.
  rewrite getNamedLandmarks_cons.
  unfold PushupRules.THRESHOLDS.CONFIDENCE_THRESHOLD. cbn [existsb].
  split_gate early_return.
  name_points.
  destruct (landmark_below (p :: l) rightHip nose _ Elm) as [qn En];
    [simpl; repeat constructor|].
  destruct (landmark_below (p :: l) rightHip leftEye _ Elm) as [ql El];
    [simpl; repeat constructor|].
  destruct (landmark_below (p :: l) rightHip rightEye _ Elm) as [qr Er];
    [simpl; repeat constructor|].
  rewrite Elm, Elm0, Elm1, Elm2, Elm3, Elm4, Elm5, Elm6, En, El, Er.
  cbn [deref bind].
  eexists. split; [reflexivity|]. cbn [isCorrect issues].
  split; [apply length_eqb_nil|].
  intros Hin.
  destruct phase;
    repeat first
      [ apply In_push_if in Hin; destruct Hin as [[_ Hin]|Hin];
        [discriminate Hin|]
      | apply In_back_check in Hin; destruct Hin as [Hin|Hin];
        [discriminate Hin|] ];
    exact Hin.
Qed.

(** C6: for every frame and every phase, [evaluateSquatForm] and
    [evaluatePushupForm] return a result, the early returns included, in
    which [isCorrect] is true if and only if the list of issues is empty. *)
Theorem isCorrect_iff_no_issue (landmarks : Landmarks) :
  (forall phase,
      exists r,
        SquatRules.evaluateSquatForm landmarks phase = Ok r
        /\ (r.(isCorrect) = true <-> r.(issues) = []))
  /\ (forall phase,
        exists r,
          PushupRules.evaluatePushupForm landmarks phase = Ok r
          /\ (r.(isCorrect) = true <-> r.(issues) = [])).
Proof.
  split; intros phase.
  - apply evaluateSquatForm_shape.
  - destruct (evaluatePushupForm_shape landmarks phase) as (r & Hr & Hc & _).
    exists r. split; assumption.
Qed.

(** C9: for every frame and every phase, [evaluatePushupForm] returns a
    result whose issues do not contain "Hips too high (piking)": the back
    angle comes from [calculateAngle], which is never negative, and the
    branch needs it below -15. *)
Theorem pushup_never_reports_piking (landmarks : Landmarks)
    (phase : PushupRules.PUSHUP_PHASES) :
  exists r,
    PushupRules.evaluatePushupForm landmarks phase = Ok r
    /\ ~ In "Hips too high (piking)"%string r.(issues).
Proof.
  destruct (evaluatePushupForm_shape landmarks phase) as (r & Hr & _ & Hp).
  exists r. split; assumption.
Qed.

Lemma In_length_eqb (A : Type) (s : A) (l : list A) :
  In s l -> Nat.eqb (List.length l) 0 = false.
Proof. destruct l; simpl; [tauto | reflexivity]. Qed.

Lemma jointAngle_legFrame (deg h : R) :
  (0 <= deg <= 180)%R ->
  jointAngle (legFrame deg h) leftHip leftKnee leftAnkle = Some (Num deg)
  /\ jointAngle (legFrame deg h) rightHip rightKnee rightAnkle
     = Some (Num deg).
Proof.
  intros Hdeg. unfold jointAngle, landmark, legFrame.
  cbn [nth_error landmarkIndices].
  rewrite (calculate3DAngle_degrees deg h Hdeg). split; reflexivity.
Qed.

(** C7: on a frame whose eight required landmarks are visible,
    [evaluateSquatForm] at phase [bottom] lists "Knees not bent enough"
    exactly when the left or the right knee angle exceeds 100 degrees; in
    particular when one of them is 130 degrees the issue is listed and
    [isCorrect] is false, whatever the other measurements. *)
Theorem knees_not_bent_enough (l : list Point) :
  allShown l squatFormLandmarks ->
  exists r leftKneeAngle rightKneeAngle,
    SquatRules.evaluateSquatForm (Some l) SquatRules.BOTTOM = Ok r
    /\ jointAngle l leftHip leftKnee leftAnkle = Some leftKneeAngle
    /\ jointAngle l rightHip rightKnee rightAnkle = Some rightKneeAngle
    /\ (In "Knees not bent enough"%string r.(issues) <->
        num_lt (Num 100) leftKneeAngle \/ num_lt (Num 100) rightKneeAngle)
    /\ (leftKneeAngle = Num 130 \/ rightKneeAngle = Num 130 ->
        In "Knees not bent enough"%string r.(issues)
        /\ r.(isCorrect) = false).
Proof.
  intros H. destruct l as [|p l].
  - exfalso.
    apply (allShown_nonempty squatFormLandmarks leftHip); simpl; auto.
  - unfold SquatRules.evaluateSquatForm, jointAngle.
    rewrite getNamedLandmarks_cons.
    pass_gate H.
    do 3 eexists.
    split; [reflexivity|]. split; [reflexivity|]. split; [reflexivity|].
    cbn [isCorrect issues].
    match goal with
    | |- (In ?s ?l <-> ?P) /\ _ =>
      assert (In s l <-> P) as Hiff
    end.
    { rewrite !In_push_if. simpl In.
      unfold SquatRules.THRESHOLDS.MAX_KNEE_ANGLE.
      rewrite <- !gt_true_iff, <- orb_true_iff.
      split.
      - intros [[_ E]|[[_ E]|[[_ E]|[[_ E]|[[_ E]|[[_ E]|[[Hk _]|[]]]]]]]];
          try discriminate E.
        exact Hk.
      - intros Hk. do 6 right. left. split; [exact Hk | reflexivity]. }
    split; [exact Hiff|].
    intros Hk.
    match type of Hiff with
    | ?A <-> _ => assert A as Hin
    end.
    { apply Hiff. destruct Hk as [-> | ->]; [left | right]; simpl; lra. }
    split; [exact Hin|].
    exact (In_length_eqb _ _ _ Hin).
Qed.

(** The scenario on a test pose: knees at 130 degrees, phase [bottom]. *)
Lemma knees_not_bent_enough_witness :
  exists r,
    SquatRules.evaluateSquatForm (Some (legFrame 130 0.5)) SquatRules.BOTTOM
    = Ok r
    /\ In "Knees not bent enough"%string r.(issues)
    /\ r.(isCorrect) = false.
Proof.
  destruct (knees_not_bent_enough (legFrame 130 0.5)
              (legFrame_shown 130 0.5))
    as (r & lk & rk & Hr & Hlk & _ & _ & H130).
  exists r. split; [exact Hr|].
  apply H130. left.
  destruct (jointAngle_legFrame 130 0.5) as [E _]; [lra|].
  rewrite E in Hlk. injection Hlk as <-. reflexivity.
Defined.

(** ** The angle in space *)

Section Angle3D.
Local Open Scope R_scope.

Lemma num_mul_comm (a b : num) : (a * b)%num = (b * a)%num.
Proof. destruct a, b; cbn; try reflexivity. f_equal. ring. Qed.

(** [calculate3DAngle] does not depend on the order of its two outer
    points, for any coordinates. *)
Theorem calculate3DAngle_sym (a b c : Point) :
  calculate3DAngle a b c = calculate3DAngle c b a.
Proof.
  unfold calculate3DAngle. cbn [x y z xyz].
  rewrite (num_mul_comm (x a - x b) (x c - x b)),
    (num_mul_comm (y a - y b) (y c - y b)), (num_mul_comm (z a - z b) (z c - z b)).
  rewrite (num_mul_comm (Math_sqrt _) (Math_sqrt _)).
  reflexivity.
Qed.


Lemma sq3_pos (u v w : R) : 0 <= sq3 u v w.
Proof. unfold sq3. nra. Qed.


Lemma cauchy_schwarz3 (u1 u2 u3 v1 v2 v3 : R) :
  Rabs (dot3 u1 u2 u3 v1 v2 v3) <= sqrt (sq3 u1 u2 u3) * sqrt (sq3 v1 v2 v3).
Proof.
  rewrite <- sqrt_mult by apply sq3_pos.
  rewrite <- sqrt_Rsqr_abs. apply sqrt_le_1.
  - apply Rle_0_sqr.
  - apply Rmult_le_pos; apply sq3_pos.
  - unfold Rsqr, dot3, sq3.
    pose proof (Rle_0_sqr (u1 * v2 - u2 * v1)).
    pose proof (Rle_0_sqr (u1 * v3 - u3 * v1)).
    pose proof (Rle_0_sqr (u2 * v3 - u3 * v2)).
    unfold Rsqr in *. nra.
Qed.

(** The value of [calculate3DAngle] on points with real coordinates. *)
Lemma calculate3DAngle_num (ax ay az bx by_ bz cx cy cz : R) (av bv cv : num) :
  let s1 := sq3 (ax - bx) (ay - by_) (az - bz) in
  let s2 := sq3 (cx - bx) (cy - by_) (cz - bz) in
  let d := dot3 (ax - bx) (ay - by_) (az - bz) (cx - bx) (cy - by_) (cz - bz) in
  calculate3DAngle (mkPoint (Num ax) (Num ay) (Num az) av)
    (mkPoint (Num bx) (Num by_) (Num bz) bv)
    (mkPoint (Num cx) (Num cy) (Num cz) cv)
  = if Req_dec_T (sqrt s1 * sqrt s2) 0 then NaN
    else Num (acos (d / (sqrt s1 * sqrt s2)) * 180 / PI).
Proof.
  intros s1 s2 d.
  unfold calculate3DAngle. cbn [x y z xyz sub mul add lift2].
  fold (sq3 (ax - bx) (ay - by_) (az - bz)).
  fold (sq3 (cx - bx) (cy - by_) (cz - bz)).
  fold (dot3 (ax - bx) (ay - by_) (az - bz) (cx - bx) (cy - by_) (cz - bz)).
  fold s1 s2 d.
  pose proof (sq3_pos (ax - bx) (ay - by_) (az - bz)) as H1.
  pose proof (sq3_pos (cx - bx) (cy - by_) (cz - bz)) as H2.
  fold s1 in H1. fold s2 in H2.
  unfold Math_sqrt.
  destruct (Rlt_dec s1 0); [lra|]. destruct (Rlt_dec s2 0); [lra|].
  cbn [mul lift2 div].
  destruct (Req_dec_T (sqrt s1 * sqrt s2) 0) as [E|E]; [reflexivity|].
  pose proof (cauchy_schwarz3 (ax - bx) (ay - by_) (az - bz)
                (cx - bx) (cy - by_) (cz - bz)) as CS.
  fold s1 s2 d in CS.
  assert (0 < sqrt s1 * sqrt s2) as Hm.
  { pose proof (sqrt_pos s1). pose proof (sqrt_pos s2).
    assert (0 <= sqrt s1 * sqrt s2) by (apply Rmult_le_pos; assumption).
    lra. }
  assert (-1 <= d / (sqrt s1 * sqrt s2) <= 1) as Hq.
  { assert (Rabs (d / (sqrt s1 * sqrt s2)) <= 1) as Hab.
    { unfold Rdiv. rewrite Rabs_mult.
      rewrite (Rabs_right (/ _)) by (left; apply Rinv_0_lt_compat; exact Hm).
      apply Rmult_le_reg_r with (sqrt s1 * sqrt s2); [exact Hm|].
      rewrite Rmult_assoc, Rinv_l by lra. lra. }
    pose proof (Rle_abs (d / (sqrt s1 * sqrt s2))) as Hu.
    pose proof (Rle_abs (- (d / (sqrt s1 * sqrt s2)))) as Hl.
    rewrite Rabs_Ropp in Hl. lra. }
  unfold Math_acos.
  destruct (Rlt_dec _ (-1)); [lra|]. destruct (Rlt_dec 1 _); [lra|].
  unfold Math_PI. cbn [mul lift2 div].
  destruct (Req_dec_T PI 0); [pose proof PI_RGT_0; lra|]. reflexivity.
Qed.



(** [calculate3DAngle] is [NaN] or a number of degrees between 0 and 180. *)
Lemma calculate3DAngle_cases (a b c : Point) :
  calculate3DAngle a b c = NaN
  \/ exists r, calculate3DAngle a b c = Num r /\ 0 <= r <= 180.
Proof.
  destruct a as [ax ay az av], b as [bx by_ bz bv], c as [cx cy cz cv].
  destruct ax as [|ax], ay as [|ay], az as [|az], bx as [|bx], by_ as [|by_],
    bz as [|bz], cx as [|cx], cy as [|cy], cz as [|cz];
    try (left; reflexivity).
  rewrite calculate3DAngle_num. cbv zeta.
  destruct (Req_dec_T _ 0); [left; reflexivity|]. right.
  eexists. split; [reflexivity|].
  pose proof PI_RGT_0 as Hpi.
  match goal with |- context [acos ?q] => pose proof (acos_bound q) as [Hlo Hhi] end.
  assert (0 < / PI) as Hinv by (apply Rinv_0_lt_compat; exact Hpi).
  unfold Rdiv at 1 3. split.
  - apply Rmult_le_pos; [|lra]. apply Rmult_le_pos; lra.
  - apply Rmult_le_reg_r with PI; [exact Hpi|].
    rewrite Rmult_assoc, Rinv_l by lra. lra.
Qed.

(** [calculate3DAngle] returns [NaN] or a number of degrees between 0 and
    180, for any coordinates. *)
Theorem calculate3DAngle_range (a b c : Point) :
  degrees (calculate3DAngle a b c).
Proof. apply calculate3DAngle_cases. Qed.



End Angle3D.

(** ** The planar angle, distances and the midpoint *)

Section Planar.
Local Open Scope R_scope.

(** [calculateAngle] does not depend on the order of its two outer points,
    for any coordinates. *)
Theorem calculateAngle_sym (a b c : Point) :
  calculateAngle a b c = calculateAngle c b a.
Proof.
  destruct a as [ax ay az av], b as [bx by_ bz bv], c as [cx cy cz cv].
  destruct ax as [|ax], ay as [|ay], bx as [|bx], by_ as [|by_],
    cx as [|cx], cy as [|cy]; try reflexivity.
  unfold calculateAngle. cbn [x y sub lift2 Math_atan2 mul div Math_PI].
  destruct (Req_dec_T PI 0); [reflexivity|].
  cbn [Math_abs lift1 gt].
  set (t1 := atan2 (cy - by_) (cx - bx)).
  set (t2 := atan2 (ay - by_) (ax - bx)).
  replace ((t2 - t1) * 180 / PI) with (- ((t1 - t2) * 180 / PI))
    by (field; assumption).
  rewrite Rabs_Ropp. reflexivity.
Qed.

Lemma Math_pow_2 (r : R) : Math_pow (Num r) 2 = Num (Rsqr r).
Proof. unfold Math_pow, lift1, Rsqr. f_equal. ring. Qed.

Lemma calculateDistance_num (ax ay bx by_ : R) (az av bz bv : num) :
  calculateDistance (mkPoint (Num ax) (Num ay) az av)
    (mkPoint (Num bx) (Num by_) bz bv)
  = Num (dist_euc bx by_ ax ay).
Proof.
  unfold calculateDistance. cbn [x y sub lift2].
  rewrite !Math_pow_2. cbn [add lift2]. unfold Math_sqrt, dist_euc.
  pose proof (Rle_0_sqr (bx - ax)). pose proof (Rle_0_sqr (by_ - ay)).
  destruct (Rlt_dec _ 0); [lra | reflexivity].
Qed.




Lemma calculate3DDistance_num (ax ay az bx by_ bz : R) (av bv : num) :
  calculate3DDistance (mkPoint (Num ax) (Num ay) (Num az) av)
    (mkPoint (Num bx) (Num by_) (Num bz) bv)
  = Num (sqrt (sq3 (bx - ax) (by_ - ay) (bz - az))).
Proof.
  unfold calculate3DDistance. cbn [x y z sub lift2].
  rewrite !Math_pow_2. cbn [add lift2]. unfold Math_sqrt, Rsqr.
  fold (sq3 (bx - ax) (by_ - ay) (bz - az)).
  pose proof (sq3_pos (bx - ax) (by_ - ay) (bz - az)).
  destruct (Rlt_dec _ 0); [lra | reflexivity].
Qed.


(** The planar distance is at most the distance in space. *)
Theorem calculateDistance_le_3D (a b : Point) :
  finitePoint a -> finitePoint b ->
  exists d2 d3,
    calculateDistance a b = Num d2
    /\ calculate3DDistance a b = Num d3
    /\ d2 <= d3.
Proof.
  destruct a as [ax ay az av], b as [bx by_ bz bv].
  intros ((rax & Eax) & (ray & Eay) & (raz & Eaz))
    ((rbx & Ebx) & (rby & Eby) & (rbz & Ebz)).
  cbn [x y z] in *. subst.
  rewrite calculateDistance_num, calculate3DDistance_num.
  do 2 eexists. repeat (split; [reflexivity|]).
  unfold dist_euc. apply sqrt_le_1.
  - pose proof (Rle_0_sqr (rbx - rax)). pose proof (Rle_0_sqr (rby - ray)). lra.
  - apply sq3_pos.
  - pose proof (Rle_0_sqr (rbz - raz)) as Hz.
    unfold sq3, Rsqr in *. lra.
Qed.

(** The midpoint of two points is visible at a threshold exactly when both
    points are: its visibility is the smaller of the two. *)
Theorem getMidpoint_visible (a b : Point) (t : num) :
  isPointVisible (Some (getMidpoint a b)) t
  = isPointVisible (Some a) t && isPointVisible (Some b) t.
Proof.
  unfold isPointVisible, getMidpoint. cbn [visibility].
  destruct (visibility a) as [|va], (visibility b) as [|vb], t as [|t];
    cbn [Math_min lift2 gt andb]; try reflexivity;
    try (destruct (Rlt_dec _ _); reflexivity).
  unfold Rmin. destruct (Rle_dec va vb); real_cases; reflexivity.
Qed.


End Planar.

(** ** More phase transitions *)

Section Classifiers.
Local Open Scope R_scope.

Lemma squatTransition_extended (a h : num) (pp : SquatRules.SQUAT_PHASES)
    (pv : nullable) :
  num_lt (Num 160) a -> squatTransition a h pp pv = SquatRules.STANDING.
Proof.
  intros Ha. apply gt_true_iff in Ha. unfold squatTransition.
  rewrite Ha. reflexivity.
Qed.

Lemma pushupTransition_extended (a : num) (pp : PushupRules.PUSHUP_PHASES)
    (pv : nullable) :
  num_lt (Num 150) a -> pushupTransition a pp pv = PushupRules.TOP.
Proof.
  intros Ha. apply gt_true_iff in Ha. unfold pushupTransition.
  rewrite Ha. reflexivity.
Qed.

(** On a usable frame with an average knee angle above 160 degrees
    [determineSquatPhase] returns [standing], and with an average elbow
    angle above 150 degrees [determinePushupPhase] returns [top], whatever
    the previous phase and metric. *)
Theorem extended_limbs_reset_phase :
  (forall l a prevPhase prevHipHeight,
      allShown l squatPhaseLandmarks ->
      avgKneeAngle l = Some a ->
      num_lt (Num 160) a ->
      exists h,
        avgHipHeight l = Some h
        /\ SquatRules.determineSquatPhase (Some l) prevPhase prevHipHeight
           = Ok {| SquatRules.phase := SquatRules.STANDING;
                   SquatRules.hipHeight := Some h |})
  /\ (forall l a prevPhase prevElbowAngle,
        allShown l pushupPhaseLandmarks ->
        avgElbowAngle l = Some a ->
        num_lt (Num 150) a ->
        PushupRules.determinePushupPhase (Some l) prevPhase prevElbowAngle
        = Ok {| PushupRules.phase := PushupRules.TOP;
                PushupRules.elbowAngle := Some a |}).
Proof.
  split.
  - intros l a pp pv Hs Ha Hext.
    destruct (determineSquatPhase_usable l pp pv Hs)
      as (a' & h & Ha' & Hh & Hrun).
    rewrite Ha in Ha'. injection Ha' as <-.
    rewrite (squatTransition_extended a h pp pv Hext) in Hrun. eauto.
  - intros l a pp pv Hs Ha Hext.
    destruct (determinePushupPhase_usable l pp pv Hs) as (a' & Ha' & Hrun).
    rewrite Ha in Ha'. injection Ha' as <-.
    rewrite (pushupTransition_extended a pp pv Hext) in Hrun. exact Hrun.
Qed.

(** Knees and elbows at 170 degrees, after [bottom] and [ascending]. *)
Lemma extended_limbs_reset_phase_witness :
  SquatRules.determineSquatPhase (Some (legFrame 170 0.5)) SquatRules.BOTTOM
    (Some (Num 0.3))
  = Ok {| SquatRules.phase := SquatRules.STANDING;
          SquatRules.hipHeight := Some (Num 0.5) |}
  /\ PushupRules.determinePushupPhase (Some (armFrame 170))
       PushupRules.ASCENDING (Some (Num 90))
     = Ok {| PushupRules.phase := PushupRules.TOP;
             PushupRules.elbowAngle := Some (Num 170) |}.
Proof.
  split.
  - destruct (proj1 extended_limbs_reset_phase (legFrame 170 0.5) (Num 170)
                SquatRules.BOTTOM (Some (Num 0.3)))
      as (h & Hh & Hrun).
    + apply legFrame_shown_legs.
    + apply avgKneeAngle_legFrame. lra.
    + simpl. lra.
    + rewrite avgHipHeight_legFrame in Hh. injection Hh as <-. exact Hrun.
  - apply (proj2 extended_limbs_reset_phase).
    + apply armFrame_shown_arms.
    + apply avgElbowAngle_armFrame. lra.
    + simpl. lra.
Defined.

Lemma squatTransition_band (a h : num) (pp : SquatRules.SQUAT_PHASES)
    (pv : nullable) :
  ~ num_lt (Num 160) a -> ~ num_lt a (Num 110) ->
  pp <> SquatRules.DESCENDING ->
  squatTransition a h pp pv = pp.
Proof.
  intros H1 H2 Hpp. unfold squatTransition.
  destruct (a >? Num 160)%num eqn:E1; [apply gt_true_iff in E1; tauto|].
  destruct (a <? Num 110)%num eqn:E2; [apply lt_true_iff in E2; tauto|].
  cbn [andb]. destruct pp; try reflexivity. congruence.
Qed.

Lemma pushupTransition_band (a : num) (pp : PushupRules.PUSHUP_PHASES)
    (pv : nullable) :
  ~ num_lt (Num 150) a -> ~ num_lt a (Num 120) ->
  pp <> PushupRules.DESCENDING ->
  pushupTransition a pp pv = pp.
Proof.
  intros H1 H2 Hpp. unfold pushupTransition.
  destruct (a >? Num 150)%num eqn:E1; [apply gt_true_iff in E1; tauto|].
  destruct (a <? Num 120)%num eqn:E2; [apply lt_true_iff in E2; tauto|].
  cbn [andb]. destruct pp; try reflexivity. congruence.
Qed.

(** On a usable frame whose average angle is neither above the upper
    threshold nor below the lower one (a [NaN] angle included), a previous
    phase other than [descending] is returned unchanged, with the new
    metric. *)
Theorem middle_band_keeps_phase :
  (forall l a prevPhase prevHipHeight,
      allShown l squatPhaseLandmarks ->
      avgKneeAngle l = Some a ->
      ~ num_lt (Num 160) a -> ~ num_lt a (Num 110) ->
      prevPhase <> SquatRules.DESCENDING ->
      exists h,
        avgHipHeight l = Some h
        /\ SquatRules.determineSquatPhase (Some l) prevPhase prevHipHeight
           = Ok {| SquatRules.phase := prevPhase;
                   SquatRules.hipHeight := Some h |})
  /\ (forall l a prevPhase prevElbowAngle,
        allShown l pushupPhaseLandmarks ->
        avgElbowAngle l = Some a ->
        ~ num_lt (Num 150) a -> ~ num_lt a (Num 120) ->
        prevPhase <> PushupRules.DESCENDING ->
        PushupRules.determinePushupPhase (Some l) prevPhase prevElbowAngle
        = Ok {| PushupRules.phase := prevPhase;
                PushupRules.elbowAngle := Some a |}).
Proof.
  split.
  - intros l a pp pv Hs Ha H1 H2 Hpp.
    destruct (determineSquatPhase_usable l pp pv Hs)
      as (a' & h & Ha' & Hh & Hrun).
    rewrite Ha in Ha'. injection Ha' as <-.
    rewrite (squatTransition_band a h pp pv H1 H2 Hpp) in Hrun. eauto.
  - intros l a pp pv Hs Ha H1 H2 Hpp.
    destruct (determinePushupPhase_usable l pp pv Hs) as (a' & Ha' & Hrun).
    rewrite Ha in Ha'. injection Ha' as <-.
    rewrite (pushupTransition_band a pp pv H1 H2 Hpp) in Hrun. exact Hrun.
Qed.

(** Knees and elbows at 130 degrees, after [ascending] and [bottom]. *)
Lemma middle_band_keeps_phase_witness :
  SquatRules.determineSquatPhase (Some (legFrame 130 0.5))
    SquatRules.ASCENDING (Some (Num 0.7))
  = Ok {| SquatRules.phase := SquatRules.ASCENDING;
          SquatRules.hipHeight := Some (Num 0.5) |}
  /\ PushupRules.determinePushupPhase (Some (armFrame 130))
       PushupRules.BOTTOM (Some (Num 90))
     = Ok {| PushupRules.phase := PushupRules.BOTTOM;
             PushupRules.elbowAngle := Some (Num 130) |}.
Proof.
  split.
  - destruct (proj1 middle_band_keeps_phase (legFrame 130 0.5) (Num 130)
                SquatRules.ASCENDING (Some (Num 0.7)))
      as (h & Hh & Hrun).
    + apply legFrame_shown_legs.
    + apply avgKneeAngle_legFrame. lra.
    + simpl. lra.
    + simpl. lra.
    + discriminate.
    + rewrite avgHipHeight_legFrame in Hh. injection Hh as <-. exact Hrun.
  - apply (proj2 middle_band_keeps_phase).
    + apply armFrame_shown_arms.
    + apply avgElbowAngle_armFrame. lra.
    + simpl. lra.
    + simpl. lra.
    + discriminate.
Defined.

(** How [bottom] is reached: on a usable frame whose average angle lies
    between the two thresholds, the previous phase [descending] becomes
    [bottom] when the hips are lower than a non-zero previous hip height,
    respectively when the elbow angle is larger than the previous one. *)
Theorem middle_band_promotes_descending :
  (forall l a p q,
      allShown l squatPhaseLandmarks ->
      avgKneeAngle l = Some a ->
      ~ num_lt (Num 160) a -> ~ num_lt a (Num 110) ->
      avgHipHeight l = Some (Num q) ->
      p <> 0 -> q < p ->
      SquatRules.determineSquatPhase (Some l) SquatRules.DESCENDING
        (Some (Num p))
      = Ok {| SquatRules.phase := SquatRules.BOTTOM;
              SquatRules.hipHeight := Some (Num q) |})
  /\ (forall l p q,
        allShown l pushupPhaseLandmarks ->
        avgElbowAngle l = Some (Num q) ->
        120 <= q <= 150 ->
        p < q ->
        PushupRules.determinePushupPhase (Some l) PushupRules.DESCENDING
          (Some (Num p))
        = Ok {| PushupRules.phase := PushupRules.BOTTOM;
                PushupRules.elbowAngle := Some (Num q) |}).
Proof.
  split.
  - intros l a p q Hs Ha H1 H2 Hh Hp Hq.
    destruct (determineSquatPhase_usable l SquatRules.DESCENDING
                (Some (Num p)) Hs) as (a' & h & Ha' & Hh' & Hrun).
    rewrite Ha in Ha'. injection Ha' as <-.
    rewrite Hh in Hh'. injection Hh' as <-.
    rewrite Hrun. do 2 f_equal. unfold squatTransition.
    destruct (a >? Num 160)%num eqn:E1; [apply gt_true_iff in E1; tauto|].
    destruct (a <? Num 110)%num eqn:E2; [apply lt_true_iff in E2; tauto|].
    cbn [andb SquatRules.phase_eqb or_else truthy].
    real_cases. cbn [lt gt]. real_cases. reflexivity.
  - intros l p q Hs Ha Hband Hq.
    destruct (determinePushupPhase_usable l PushupRules.DESCENDING
                (Some (Num p)) Hs) as (a' & Ha' & Hrun).
    rewrite Ha in Ha'. injection Ha' as <-.
    rewrite Hrun. do 2 f_equal. eval_transition.
Qed.

(** Knees at 140 degrees with lower hips, elbows at 125 degrees after
    110. *)
Lemma middle_band_promotes_descending_witness :
  SquatRules.determineSquatPhase (Some (legFrame 140 0.4))
    SquatRules.DESCENDING (Some (Num 0.45))
  = Ok {| SquatRules.phase := SquatRules.BOTTOM;
          SquatRules.hipHeight := Some (Num 0.4) |}
  /\ PushupRules.determinePushupPhase (Some (armFrame 125))
       PushupRules.DESCENDING (Some (Num 110))
     = Ok {| PushupRules.phase := PushupRules.BOTTOM;
             PushupRules.elbowAngle := Some (Num 125) |}.
Proof.
  split.
  - apply (proj1 middle_band_promotes_descending (legFrame 140 0.4) (Num 140)).
    + apply legFrame_shown_legs.
    + apply avgKneeAngle_legFrame. lra.
    + simpl. lra.
    + simpl. lra.
    + apply avgHipHeight_legFrame.
    + lra.
    + lra.
  - apply (proj2 middle_band_promotes_descending).
    + apply armFrame_shown_arms.
    + apply avgElbowAngle_armFrame. lra.
    + lra.
    + lra.
Defined.

(** The turnaround of a push-up below 120 degrees: from the rest state, a
    frame above 150 degrees, a frame below 120 degrees and a frame with a
    larger angle still below 120 degrees are reported [top], [descending]
    and [ascending]; [bottom] is not reported. *)
Theorem pushup_turnaround_reports_ascending (f1 f2 f3 : list Point)
    (a1 a2 a3 : num) :
  allShown f1 pushupPhaseLandmarks ->
  allShown f2 pushupPhaseLandmarks ->
  allShown f3 pushupPhaseLandmarks ->
  avgElbowAngle f1 = Some a1 ->
  avgElbowAngle f2 = Some a2 ->
  avgElbowAngle f3 = Some a3 ->
  num_lt (Num 150) a1 ->
  num_lt a2 (Num 120) ->
  num_lt a3 (Num 120) ->
  num_lt a2 a3 ->
  exists r1 r2 r3,
    PushupRules.determinePushupPhase (Some f1) PushupRules.TOP None = Ok r1
    /\ PushupRules.determinePushupPhase (Some f2) r1.(PushupRules.phase)
         r1.(PushupRules.elbowAngle) = Ok r2
    /\ PushupRules.determinePushupPhase (Some f3) r2.(PushupRules.phase)
         r2.(PushupRules.elbowAngle) = Ok r3
    /\ r1.(PushupRules.phase) = PushupRules.TOP
    /\ r2.(PushupRules.phase) = PushupRules.DESCENDING
    /\ r3.(PushupRules.phase) = PushupRules.ASCENDING.
Proof.
  intros S1 S2 S3 A1 A2 A3 Htop Hlow2 Hlow3 Hup.
  destruct (determinePushupPhase_usable f1 PushupRules.TOP None S1)
    as (b1 & B1 & R1).
  rewrite A1 in B1. injection B1 as <-.
  rewrite (pushupTransition_extended a1 _ _ Htop) in R1.
  destruct (determinePushupPhase_usable f2 PushupRules.TOP (Some a1) S2)
    as (b2 & B2 & R2).
  rewrite A2 in B2. injection B2 as <-.
  destruct (determinePushupPhase_usable f3 PushupRules.DESCENDING (Some a2) S3)
    as (b3 & B3 & R3).
  rewrite A3 in B3. injection B3 as <-.
  assert (pushupTransition a2 PushupRules.TOP (Some a1)
          = PushupRules.DESCENDING) as E2.
  { destruct a1 as [|a1], a2 as [|a2]; cbn [num_lt] in *; try tauto.
    eval_transition. }
  assert (pushupTransition a3 PushupRules.DESCENDING (Some a2)
          = PushupRules.ASCENDING) as E3.
  { destruct a2 as [|a2], a3 as [|a3]; cbn [num_lt] in *; try tauto.
    eval_transition. }
  rewrite E2 in R2. rewrite E3 in R3.
  do 3 eexists.
  split; [exact R1|]. split; [exact R2|]. split; [exact R3|].
  repeat split; reflexivity.
Qed.

(** Elbows at 160, 90 and 95 degrees. *)
Lemma pushup_turnaround_witness :
  exists r1 r2 r3,
    PushupRules.determinePushupPhase (Some (armFrame 160)) PushupRules.TOP
      None = Ok r1
    /\ PushupRules.determinePushupPhase (Some (armFrame 90))
         r1.(PushupRules.phase) r1.(PushupRules.elbowAngle) = Ok r2
    /\ PushupRules.determinePushupPhase (Some (armFrame 95))
         r2.(PushupRules.phase) r2.(PushupRules.elbowAngle) = Ok r3
    /\ r1.(PushupRules.phase) = PushupRules.TOP
    /\ r2.(PushupRules.phase) = PushupRules.DESCENDING
    /\ r3.(PushupRules.phase) = PushupRules.ASCENDING.
Proof.
  apply (pushup_turnaround_reports_ascending
           (armFrame 160) (armFrame 90) (armFrame 95)
           (Num 160) (Num 90) (Num 95));
    try apply armFrame_shown_arms;
    try (apply avgElbowAngle_armFrame; lra);
    simpl; lra.
Defined.
End Classifiers.

(** ** The reports of the evaluators *)

Lemma subseq_snoc_skip (A : Type) (m : A) (l l' : list A) :
  subseq l l' -> subseq l (l' ++ [m]).
Proof.
  induction 1; simpl.
  - apply subseq_skip, subseq_nil.
  - apply subseq_skip. assumption.
  - apply subseq_keep. assumption.
Qed.

Lemma subseq_snoc_keep (A : Type) (m : A) (l l' : list A) :
  subseq l l' -> subseq (l ++ [m]) (l' ++ [m]).
Proof.
  induction 1; simpl.
  - apply subseq_keep, subseq_nil.
  - apply subseq_skip. assumption.
  - apply subseq_keep. assumption.
Qed.

Lemma subseq_push_if (cond : bool) (m : string) (l l' : list string) :
  subseq l l' -> subseq (push_if cond m l) (l' ++ [m]).
Proof.
  intros H. unfold push_if. destruct cond.
  - apply subseq_snoc_keep, H.
  - apply subseq_snoc_skip, H.
Qed.

Lemma subseq_In (A : Type) (a : A) (l l' : list A) :
  subseq l l' -> In a l -> In a l'.
Proof.
  induction 1; simpl; intros Hin; auto.
  destruct Hin; auto.
Qed.

Lemma subseq_NoDup (A : Type) (l l' : list A) :
  subseq l l' -> NoDup l' -> NoDup l.
Proof.
  induction 1; intros Hnd.
  - constructor.
  - inversion Hnd; subst. auto.
  - inversion Hnd; subst. constructor; [|auto].
    intros Hin. eauto using subseq_In.
Qed.

Lemma subseq_back_check (a b c : Point) (l l' : list string) :
  subseq l l' ->
  subseq (if (calculateAngle a b c >? PushupRules.THRESHOLDS.MAX_BACK_SAG)%num
          then l ++ ["Back sagging too much"%string]
          else if (calculateAngle a b c
                   <? - PushupRules.THRESHOLDS.MAX_BACK_PIKE)%num
          then l ++ ["Hips too high (piking)"%string]
          else l)
    (l' ++ ["Back sagging too much"%string]).
Proof.
  intros H. unfold PushupRules.THRESHOLDS.MAX_BACK_PIKE. cbn [neg lift1].
  rewrite calculateAngle_not_below by lra.
  destruct (_ >? _)%num.
  - apply subseq_snoc_keep, H.
  - apply subseq_snoc_skip, H.
Qed.

Lemma NoDup_strings_squat (phase : SquatRules.SQUAT_PHASES) :
  NoDup (squatChecklist phase).
Proof.
  destruct phase; simpl;
    repeat (constructor;
            [simpl; intros Hin;
             repeat (destruct Hin as [Hin|Hin]; [discriminate Hin|]);
             exact Hin|]);
    constructor.
Qed.

Lemma NoDup_strings_pushup (phase : PushupRules.PUSHUP_PHASES) :
  NoDup (pushupChecklist phase).
Proof.
  destruct phase; simpl;
    repeat (constructor;
            [simpl; intros Hin;
             repeat (destruct Hin as [Hin|Hin]; [discriminate Hin|]);
             exact Hin|]);
    constructor.
Qed.

Ltac early_report :=
  eexists; split; [reflexivity|]; cbn [issues]; split;
  [ auto | repeat constructor; simpl; tauto ].

(** [evaluateSquatForm] lists one of the two early messages, or issues of
    the checklist of its phase in the order of the checks, and never the same
    issue twice. *)
Theorem squat_issues_follow_checklist (landmarks : Landmarks)
    (phase : SquatRules.SQUAT_PHASES) :
  exists r,
    SquatRules.evaluateSquatForm landmarks phase = Ok r
    /\ issueReport (squatChecklist phase) r.(issues).
Proof.
  unfold issueReport.
  destruct landmarks as [[|p l]|]; try early_report.
  unfold SquatRules.evaluateSquatForm.
  rewrite getNamedLandmarks_cons.
  unfold SquatRules.THRESHOLDS.CONFIDENCE_THRESHOLD. cbn [existsb].
  split_gate early_report.
  name_points.
  rewrite Elm, Elm0, Elm1, Elm2, Elm3, Elm4, Elm5, Elm6.
  cbn [deref bind].
  eexists. split; [reflexivity|]. cbn [issues].
  match goal with
  | |- (_ \/ _ \/ subseq ?l _) /\ _ =>
    assert (subseq l (squatChecklist phase)) as Hsub
  end.
  { destruct phase; cbn [squatChecklist];
      repeat match goal with
      | |- subseq (push_if ?c ?m ?l) ?l' =>
        apply (subseq_push_if c m l (removelast l'))
      end;
      apply subseq_nil. }
  split; [auto|].
  exact (subseq_NoDup _ _ _ Hsub (NoDup_strings_squat phase)).
Qed.

Ltac pushup_points p l Elm :=
  destruct (landmark_below (p :: l) rightHip nose _ Elm) as [qn En];
    [simpl; repeat constructor|];
  destruct (landmark_below (p :: l) rightHip leftEye _ Elm) as [ql El];
    [simpl; repeat constructor|];
  destruct (landmark_below (p :: l) rightHip rightEye _ Elm) as [qr Er];
    [simpl; repeat constructor|].

(** [evaluatePushupForm] lists one of the two early messages, or issues of
    the checklist of its phase in the order of the checks, and never the same
    issue twice. *)
Theorem pushup_issues_follow_checklist (landmarks : Landmarks)
    (phase : PushupRules.PUSHUP_PHASES) :
  exists r,
    PushupRules.evaluatePushupForm landmarks phase = Ok r
    /\ issueReport (pushupChecklist phase) r.(issues).
Proof.
  unfold issueReport.
  destruct landmarks as [[|p l]|]; try early_report.
  unfold PushupRules.evaluatePushupForm.
  rewrite getNamedLandmarks_cons.
  unfold PushupRules.THRESHOLDS.CONFIDENCE_THRESHOLD. cbn [existsb].
  split_gate early_report.
  name_points.
  pushup_points p l Elm.
  rewrite Elm, Elm0, Elm1, Elm2, Elm3, Elm4, Elm5, Elm6, En, El, Er.
  cbn [deref bind].
  eexists. split; [reflexivity|]. cbn [issues].
  match goal with
  | |- (_ \/ _ \/ subseq ?l _) /\ _ =>
    assert (subseq l (pushupChecklist phase)) as Hsub
  end.
  { destruct phase; cbn [pushupChecklist];
      repeat first
        [ match goal with
          | |- subseq (push_if ?c ?m ?l) ?l' =>
            apply (subseq_push_if c m l (removelast l'))
          end
        | match goal with
          | |- subseq (if (calculateAngle ?a ?b ?c >? _)%num then _ else _)
                 ?l' =>
            apply (subseq_back_check a b c _ (removelast l'))
          end ];
      apply subseq_nil. }
  split; [auto|].
  exact (subseq_NoDup _ _ _ Hsub (NoDup_strings_pushup phase)).
Qed.

Section Reports.
Local Open Scope R_scope.



(** When an evaluator reports angles, they are the five (squat) or four
    (push-up) named angles in a fixed order, each [NaN] or between 0 and 180
    degrees. *)
Theorem reported_angles_are_degrees (landmarks : Landmarks) :
  (forall phase,
      exists r,
        SquatRules.evaluateSquatForm landmarks phase = Ok r
        /\ anglesReport
             ["leftKnee"; "rightKnee"; "leftHip"; "rightHip"; "back"]%string
             r.(angles))
  /\ (forall phase,
        exists r,
          PushupRules.evaluatePushupForm landmarks phase = Ok r
          /\ anglesReport ["leftElbow"; "rightElbow"; "back"; "neck"]%string
               r.(angles)).
Proof.
  split; intros phase.
  - destruct landmarks as [[|p l]|];
      try (eexists; split; [reflexivity | exact I]).
    unfold SquatRules.evaluateSquatForm.
    rewrite getNamedLandmarks_cons.
    unfold SquatRules.THRESHOLDS.CONFIDENCE_THRESHOLD. cbn [existsb].
    split_gate ltac:(eexists; split; [reflexivity | exact I]).
    name_points.
    rewrite Elm, Elm0, Elm1, Elm2, Elm3, Elm4, Elm5, Elm6.
    cbn [deref bind].
    eexists. split; [reflexivity|]. cbn [angles anglesReport].
    split; [reflexivity|].
    repeat (apply Forall_cons;
            [ cbn [snd];
              first [apply calculate3DAngle_cases | apply calculateAngle_cases]
            |]).
    apply Forall_nil.
  - destruct landmarks as [[|p l]|];
      try (eexists; split; [reflexivity | exact I]).
    unfold PushupRules.evaluatePushupForm.
    rewrite getNamedLandmarks_cons.
    unfold PushupRules.THRESHOLDS.CONFIDENCE_THRESHOLD. cbn [existsb].
    split_gate ltac:(eexists; split; [reflexivity | exact I]).
    name_points.
    pushup_points p l Elm.
    rewrite Elm, Elm0, Elm1, Elm2, Elm3, Elm4, Elm5, Elm6, En, El, Er.
    cbn [deref bind].
    eexists. split; [reflexivity|]. cbn [angles anglesReport].
    split; [reflexivity|].
    repeat (apply Forall_cons;
            [ cbn [snd];
              first [apply calculate3DAngle_cases | apply calculateAngle_cases]
            |]).
    apply Forall_nil.
Qed.

(** The evaluators report angles exactly on the frames whose eight landmarks
    are shown, and the classifiers measure all of these frames. *)
Lemma evaluateSquatForm_angles (l : list Point)
    (phase : SquatRules.SQUAT_PHASES) (r : Evaluation) :
  SquatRules.evaluateSquatForm (Some l) phase = Ok r ->
  (r.(angles) <> None <-> allShown l squatFormLandmarks).
Proof.
  destruct l as [|p l].
  - intros E. injection E as <-. cbn [angles]. split; [congruence|].
    intros H. exfalso.
    apply (allShown_nonempty squatFormLandmarks leftHip); simpl; auto.
  - unfold SquatRules.evaluateSquatForm.
    rewrite getNamedLandmarks_cons.
    unfold SquatRules.THRESHOLDS.CONFIDENCE_THRESHOLD. cbn [existsb].
    repeat match goal with
    | |- context [isPointVisible (landmark ?f ?n) ?t] =>
      let E := fresh "Evis" in
      destruct (isPointVisible (landmark f n) t) eqn:E;
      cbn [negb orb];
      [| solve [ intros Er; injection Er as <-; cbn [angles];
                 split; [congruence|];
                 intros Hs; exfalso;
                 assert (shown f n) as Hn by (apply Hs; simpl; tauto);
                 apply isPointVisible_shown in Hn; congruence ] ]
    end.
    intros Er. name_points.
    rewrite Elm, Elm0, Elm1, Elm2, Elm3, Elm4, Elm5, Elm6 in Er.
    cbn [deref bind] in Er. injection Er as <-. cbn [angles].
    split; [|discriminate]. intros _.
    apply allShown_intro. repeat constructor; assumption.
Qed.
End Reports.

(** ** The back angles *)

Section Torso.
Local Open Scope R_scope.

Lemma atan2_axis (d : R) : d <> 0 -> atan2 0 d = if Rlt_dec d 0 then PI else 0.
Proof.
  intros Hd. unfold atan2.
  replace (0 / d) with 0 by (field; exact Hd). rewrite atan_0.
  destruct (Rlt_dec 0 d), (Rlt_dec d 0); try lra.
  destruct (Rlt_dec 0 0); lra.
Qed.


(** The angle between the ray to the right of [b] and the ray to a point at
    the same height: half a turn when the point is on the left. *)
Lemma calculateAngle_level (u v u' : R) (z1 v1 z2 v2 z3 v3 : num) :
  u' <> u ->
  calculateAngle (mkPoint (Num (u + 1)) (Num v) z1 v1)
    (mkPoint (Num u) (Num v) z2 v2) (mkPoint (Num u') (Num v) z3 v3)
  = Num (if Rlt_dec u' u then 180 else 0).
Proof.
  intros Hu. pose proof PI_RGT_0 as Hpi.
  unfold calculateAngle. cbn [x y sub lift2 Math_atan2 mul div Math_PI].
  destruct (Req_dec_T PI 0); [lra|].
  replace (v - v) with 0 by ring. replace (u + 1 - u) with 1 by ring.
  rewrite (atan2_axis 1) by lra. rewrite (atan2_axis (u' - u)) by lra.
  destruct (Rlt_dec 1 0); [lra|].
  cbn [Math_abs lift1 gt].
  destruct (Rlt_dec (u' - u) 0), (Rlt_dec u' u); try lra.
  - replace ((PI - 0) * 180 / PI) with 180 by (field; lra).
    rewrite Rabs_right by lra.
    destruct (Rlt_dec 180 180); [lra | reflexivity].
  - replace ((0 - 0) * 180 / PI) with 0 by (field; lra).
    rewrite Rabs_R0. destruct (Rlt_dec 180 0); [lra | reflexivity].
Qed.


End Torso.


Section TorsoRules.
Local Open Scope R_scope.

Lemma shown_present (l : list Point) (name : LandmarkName) :
  shown l name -> exists q, landmark l name = Some q.
Proof.
  unfold shown. destruct (landmark l name); [eauto | contradiction].
Qed.

(** A level body in [evaluatePushupForm]: when the middle of the hips is at
    the height of the middle of the shoulders, "Back sagging too much" is
    reported, in every phase, exactly when the hips are on the side of the
    smaller [x]. *)
Theorem pushup_level_body_sagging (l : list Point) (ms mh : Point)
    (phase : PushupRules.PUSHUP_PHASES) :
  allShown l pushupFormLandmarks ->
  midOf l leftShoulder rightShoulder = Some ms ->
  midOf l leftHip rightHip = Some mh ->
  finite ms.(x) -> finite ms.(y) -> finite mh.(x) ->
  mh.(y) = ms.(y) ->
  mh.(x) <> ms.(x) ->
  exists r,
    PushupRules.evaluatePushupForm (Some l) phase = Ok r
    /\ (In "Back sagging too much"%string r.(issues) <->
        num_lt mh.(x) ms.(x)).
Proof.
  intros H Hms Hmh Hfx Hfy Hfx' Hy Hx. destruct l as [|p l].
  { exfalso.
    apply (allShown_nonempty pushupFormLandmarks leftShoulder); simpl; auto. }
  destruct (shown_present _ _ (H rightHip ltac:(simpl; tauto))) as [qh Eh].
  pushup_points p l Eh.
  unfold PushupRules.evaluatePushupForm.
  rewrite getNamedLandmarks_cons, En, El, Er.
  unfold midOf in Hms, Hmh. clear Eh. revert Hms Hmh.
  pass_gate H.
  intros Hms Hmh. injection Hms as <-. injection Hmh as <-.
  destruct Hfx as [u Eu], Hfy as [v Ev], Hfx' as [u' Eu'].
  cbn [getMidpoint x y] in *.
  eexists. split; [reflexivity|]. cbn [issues].
  unfold xyz. cbn [x y z].
  rewrite Hy, Eu, Ev, Eu'. cbn [add lift2].
  assert (u' <> u) as Hu by (intros ->; apply Hx; congruence).
  rewrite calculateAngle_level by exact Hu.
  unfold PushupRules.THRESHOLDS.MAX_BACK_SAG,
    PushupRules.THRESHOLDS.MAX_BACK_PIKE.
  cbn [num_lt neg lift1 gt lt].
  destruct phase; rewrite ?In_push_if;
    destruct (Rlt_dec u' u); real_cases;
    rewrite ?in_app_iff, ?In_push_if; simpl In;
    intuition (try discriminate; try lra).
Qed.

(** A level body with the hips on the left of the shoulders, and the
    mirrored one. *)
Lemma pushup_level_body_sagging_witness :
  (exists r,
      PushupRules.evaluatePushupForm (Some (torsoFrame 0.6 0.5 0.3 0.5))
        PushupRules.TOP = Ok r
      /\ In "Back sagging too much"%string r.(issues))
  /\ (exists r,
        PushupRules.evaluatePushupForm (Some (torsoFrame 0.3 0.5 0.6 0.5))
          PushupRules.TOP = Ok r
        /\ ~ In "Back sagging too much"%string r.(issues)).
Proof.
  assert (forall sx hx, allShown (torsoFrame sx 0.5 hx 0.5) pushupFormLandmarks)
    as Hshown.
  { intros sx hx name Hin. simpl in Hin.
    destruct Hin as [<-|[<-|[<-|[<-|[<-|[<-|[<-|[<-|[]]]]]]]]];
      unfold shown, landmark; simpl; lra. }
  split.
  - destruct (pushup_level_body_sagging (torsoFrame 0.6 0.5 0.3 0.5)
                (getMidpoint (pt 0.6 0.5 0) (pt 0.6 0.5 0))
                (getMidpoint (pt 0.3 0.5 0) (pt 0.3 0.5 0))
                PushupRules.TOP (Hshown _ _) eq_refl eq_refl)
      as (r & Hr & Hiff).
    + simpl. destruct (Req_dec_T 2 0); [lra | eexists; reflexivity].
    + simpl. destruct (Req_dec_T 2 0); [lra | eexists; reflexivity].
    + simpl. destruct (Req_dec_T 2 0); [lra | eexists; reflexivity].
    + reflexivity.
    + simpl. destruct (Req_dec_T 2 0); [lra|].
      intros E. injection E as E. lra.
    + exists r. split; [exact Hr|]. apply Hiff.
      simpl. destruct (Req_dec_T 2 0); [lra|]. simpl. lra.
  - destruct (pushup_level_body_sagging (torsoFrame 0.3 0.5 0.6 0.5)
                (getMidpoint (pt 0.3 0.5 0) (pt 0.3 0.5 0))
                (getMidpoint (pt 0.6 0.5 0) (pt 0.6 0.5 0))
                PushupRules.TOP (Hshown _ _) eq_refl eq_refl)
      as (r & Hr & Hiff).
    + simpl. destruct (Req_dec_T 2 0); [lra | eexists; reflexivity].
    + simpl. destruct (Req_dec_T 2 0); [lra | eexists; reflexivity].
    + simpl. destruct (Req_dec_T 2 0); [lra | eexists; reflexivity].
    + reflexivity.
    + simpl. destruct (Req_dec_T 2 0); [lra|].
      intros E. injection E as E. lra.
    + exists r. split; [exact Hr|]. intros Hin. apply Hiff in Hin.
      simpl in Hin. destruct (Req_dec_T 2 0); [lra|]. simpl in Hin. lra.
Defined.







End TorsoRules.

(** ** The frame loop *)

Lemma squat_phase_eqb_eq (p q : SquatRules.SQUAT_PHASES) :
  SquatRules.phase_eqb p q = true <-> p = q.
Proof. destruct p, q; simpl; split; congruence. Qed.

Lemma pushup_phase_eqb_eq (p q : PushupRules.PUSHUP_PHASES) :
  PushupRules.phase_eqb p q = true <-> p = q.
Proof. destruct p, q; simpl; split; congruence. Qed.

(** One block of the loop on a detection with a pose: both rules return,
    and the block stores their results. *)
Lemma processSquat_pose (l : list Point) (rest : list (list Point))
    (st : PoseDetector.Detector SquatRules.SQUAT_PHASES) :
  exists r e,
    SquatRules.determineSquatPhase (Some l) st.(PoseDetector.prevPhaseRef)
      st.(PoseDetector.prevValueRef) = Ok r
    /\ SquatRules.evaluateSquatForm (Some l) r.(SquatRules.phase) = Ok e
    /\ PoseDetector.processSquat (Some (l :: rest)) st
       = {| PoseDetector.evaluation := e;
            PoseDetector.phase :=
              if SquatRules.phase_eqb r.(SquatRules.phase)
                   st.(PoseDetector.prevPhaseRef)
              then st.(PoseDetector.phase) else r.(SquatRules.phase);
            PoseDetector.landmarks := Some l;
            PoseDetector.prevPhaseRef := r.(SquatRules.phase);
            PoseDetector.prevValueRef := r.(SquatRules.hipHeight) |}.
Proof.
  assert (exists r, SquatRules.determineSquatPhase (Some l)
                      st.(PoseDetector.prevPhaseRef)
                      st.(PoseDetector.prevValueRef) = Ok r) as [r Hr].
  { destruct (determineSquatPhase_cases (Some l)
                st.(PoseDetector.prevPhaseRef) st.(PoseDetector.prevValueRef))
      as [E | (l' & a & h & _ & _ & _ & _ & E)]; eauto. }
  destruct (evaluateSquatForm_shape (Some l) r.(SquatRules.phase))
    as (e & He & _).
  exists r, e. split; [exact Hr|]. split; [exact He|].
  unfold PoseDetector.processSquat. cbn [PoseDetector.prevPhaseRef
    PoseDetector.prevValueRef PoseDetector.phase PoseDetector.landmarks
    PoseDetector.evaluation].
  rewrite Hr, He.
  destruct (SquatRules.phase_eqb _ _) eqn:E; cbn.
  - apply squat_phase_eqb_eq in E. rewrite E. reflexivity.
  - reflexivity.
Qed.

Lemma processPushup_pose (l : list Point) (rest : list (list Point))
    (st : PoseDetector.Detector PushupRules.PUSHUP_PHASES) :
  exists r e,
    PushupRules.determinePushupPhase (Some l) st.(PoseDetector.prevPhaseRef)
      st.(PoseDetector.prevValueRef) = Ok r
    /\ PushupRules.evaluatePushupForm (Some l) r.(PushupRules.phase) = Ok e
    /\ PoseDetector.processPushup (Some (l :: rest)) st
       = {| PoseDetector.evaluation := e;
            PoseDetector.phase :=
              if PushupRules.phase_eqb r.(PushupRules.phase)
                   st.(PoseDetector.prevPhaseRef)
              then st.(PoseDetector.phase) else r.(PushupRules.phase);
            PoseDetector.landmarks := Some l;
            PoseDetector.prevPhaseRef := r.(PushupRules.phase);
            PoseDetector.prevValueRef := r.(PushupRules.elbowAngle) |}.
Proof.
  assert (exists r, PushupRules.determinePushupPhase (Some l)
                      st.(PoseDetector.prevPhaseRef)
                      st.(PoseDetector.prevValueRef) = Ok r) as [r Hr].
  { destruct (determinePushupPhase_cases (Some l)
                st.(PoseDetector.prevPhaseRef) st.(PoseDetector.prevValueRef))
      as [E | (l' & a & _ & _ & _ & E)]; eauto. }
  destruct (evaluatePushupForm_shape (Some l) r.(PushupRules.phase))
    as (e & He & _).
  exists r, e. split; [exact Hr|]. split; [exact He|].
  unfold PoseDetector.processPushup. cbn [PoseDetector.prevPhaseRef
    PoseDetector.prevValueRef PoseDetector.phase PoseDetector.landmarks
    PoseDetector.evaluation].
  rewrite Hr, He.
  destruct (PushupRules.phase_eqb _ _) eqn:E; cbn.
  - apply pushup_phase_eqb_eq in E. rewrite E. reflexivity.
  - reflexivity.
Qed.

Lemma processSquat_no_pose (results : PoseDetector.DetectedPoses)
    (st : PoseDetector.Detector SquatRules.SQUAT_PHASES) :
  results = None \/ results = Some [] ->
  PoseDetector.processSquat results st = st.
Proof. intros [-> | ->]; reflexivity. Qed.

Lemma processPushup_no_pose (results : PoseDetector.DetectedPoses)
    (st : PoseDetector.Detector PushupRules.PUSHUP_PHASES) :
  results = None \/ results = Some [] ->
  PoseDetector.processPushup results st = st.
Proof. intros [-> | ->]; reflexivity. Qed.

Lemma results_cases (results : PoseDetector.DetectedPoses) :
  (results = None \/ results = Some [])
  \/ exists l rest, results = Some (l :: rest).
Proof. destruct results as [[|l rest]|]; eauto. Qed.


Lemma processSquat_keeps (results : PoseDetector.DetectedPoses)
    (st : PoseDetector.Detector SquatRules.SQUAT_PHASES) :
  synced st /\ consistent st.(PoseDetector.evaluation) ->
  synced (PoseDetector.processSquat results st)
  /\ consistent (PoseDetector.processSquat results st).(PoseDetector.evaluation).
Proof.
  intros [Hs Hc].
  destruct (results_cases results) as [Hno | (l & rest & ->)].
  - rewrite processSquat_no_pose by exact Hno. split; assumption.
  - destruct (processSquat_pose l rest st) as (r & e & Hr & He & ->).
    unfold synced. cbn. split.
    + destruct (SquatRules.phase_eqb _ _) eqn:E; [|reflexivity].
      apply squat_phase_eqb_eq in E. rewrite E. exact Hs.
    + destruct (evaluateSquatForm_shape (Some l) r.(SquatRules.phase))
        as (e' & He' & Hc').
      rewrite He in He'. injection He' as <-. exact Hc'.
Qed.

Lemma processPushup_keeps (results : PoseDetector.DetectedPoses)
    (st : PoseDetector.Detector PushupRules.PUSHUP_PHASES) :
  synced st /\ consistent st.(PoseDetector.evaluation) ->
  synced (PoseDetector.processPushup results st)
  /\ consistent
       (PoseDetector.processPushup results st).(PoseDetector.evaluation).
Proof.
  intros [Hs Hc].
  destruct (results_cases results) as [Hno | (l & rest & ->)].
  - rewrite processPushup_no_pose by exact Hno. split; assumption.
  - destruct (processPushup_pose l rest st) as (r & e & Hr & He & ->).
    unfold synced. cbn. split.
    + destruct (PushupRules.phase_eqb _ _) eqn:E; [|reflexivity].
      apply pushup_phase_eqb_eq in E. rewrite E. exact Hs.
    + destruct (evaluatePushupForm_shape (Some l) r.(PushupRules.phase))
        as (e' & He' & Hc' & _).
      rewrite He in He'. injection He' as <-. exact Hc'.
Qed.

Lemma runSquat_keeps (detections : list PoseDetector.DetectedPoses)
    (st : PoseDetector.Detector SquatRules.SQUAT_PHASES) :
  synced st /\ consistent st.(PoseDetector.evaluation) ->
  synced (PoseDetector.runSquat detections st)
  /\ consistent (PoseDetector.runSquat detections st).(PoseDetector.evaluation).
Proof.
  revert st. induction detections as [|d ds IH]; intros st H; [exact H|].
  apply IH, processSquat_keeps, H.
Qed.

Lemma runPushup_keeps (detections : list PoseDetector.DetectedPoses)
    (st : PoseDetector.Detector PushupRules.PUSHUP_PHASES) :
  synced st /\ consistent st.(PoseDetector.evaluation) ->
  synced (PoseDetector.runPushup detections st)
  /\ consistent
       (PoseDetector.runPushup detections st).(PoseDetector.evaluation).
Proof.
  revert st. induction detections as [|d ds IH]; intros st H; [exact H|].
  apply IH, processPushup_keeps, H.
Qed.

Lemma mount_keeps (P : Type) (rest : P) :
  synced (PoseDetector.mount rest)
  /\ consistent (PoseDetector.mount rest).(PoseDetector.evaluation).
Proof. split; [reflexivity|]. cbn. split; reflexivity. Qed.

(** After any sequence of detections from the mounted state, the phase
    shown equals the phase ref, and the evaluation shown is correct exactly
    when it lists no issue. *)
Theorem detector_state_invariant
    (detections : list PoseDetector.DetectedPoses) :
  (let st := PoseDetector.runSquat detections PoseDetector.mountSquat in
   st.(PoseDetector.phase) = st.(PoseDetector.prevPhaseRef)
   /\ (st.(PoseDetector.evaluation).(isCorrect) = true <->
       st.(PoseDetector.evaluation).(issues) = []))
  /\ (let st := PoseDetector.runPushup detections PoseDetector.mountPushup in
      st.(PoseDetector.phase) = st.(PoseDetector.prevPhaseRef)
      /\ (st.(PoseDetector.evaluation).(isCorrect) = true <->
          st.(PoseDetector.evaluation).(issues) = [])).
Proof.
  split.
  - apply (runSquat_keeps detections), mount_keeps.
  - apply (runPushup_keeps detections), mount_keeps.
Qed.

(** In a session from the mounted state, when [bottom] is shown after a
    detection, [bottom] or [descending] was shown before it; so [bottom] is
    never shown after the first detection. *)
Theorem bottom_follows_descending_in_session
    (detections : list PoseDetector.DetectedPoses)
    (results : PoseDetector.DetectedPoses) :
  ((PoseDetector.runSquat (detections ++ [results])
      PoseDetector.mountSquat).(PoseDetector.phase) = SquatRules.BOTTOM ->
   let before :=
     (PoseDetector.runSquat detections
        PoseDetector.mountSquat).(PoseDetector.phase) in
   before = SquatRules.BOTTOM \/ before = SquatRules.DESCENDING)
  /\ ((PoseDetector.runPushup (detections ++ [results])
         PoseDetector.mountPushup).(PoseDetector.phase) = PushupRules.BOTTOM ->
      let before :=
        (PoseDetector.runPushup detections
           PoseDetector.mountPushup).(PoseDetector.phase) in
      before = PushupRules.BOTTOM \/ before = PushupRules.DESCENDING).
Proof.
  split.
  - unfold PoseDetector.runSquat. rewrite fold_left_app. cbn [fold_left].
    fold (PoseDetector.runSquat detections PoseDetector.mountSquat).
    destruct (runSquat_keeps detections PoseDetector.mountSquat
                (mount_keeps _ _)) as [Hs _].
    set (st := PoseDetector.runSquat detections PoseDetector.mountSquat) in *.
    destruct (results_cases results) as [Hno | (l & rest & ->)].
    + rewrite processSquat_no_pose by exact Hno. cbv zeta. auto.
    + destruct (processSquat_pose l rest st) as (r & e & Hr & He & ->).
      cbn [PoseDetector.phase]. cbv zeta. unfold synced in Hs. rewrite Hs.
      destruct (SquatRules.phase_eqb _ _) eqn:E; [auto|].
      intros Hb.
      destruct (determineSquatPhase_cases (Some l)
                  st.(PoseDetector.prevPhaseRef)
                  st.(PoseDetector.prevValueRef))
        as [Hskip | (l' & a & h & _ & _ & _ & _ & Hstep)].
      * rewrite Hskip in Hr. injection Hr as <-. cbn in Hb. auto.
      * rewrite Hstep in Hr. injection Hr as <-. cbn in Hb.
        exact (squatTransition_bottom _ _ _ _ Hb).
  - unfold PoseDetector.runPushup. rewrite fold_left_app. cbn [fold_left].
    fold (PoseDetector.runPushup detections PoseDetector.mountPushup).
    destruct (runPushup_keeps detections PoseDetector.mountPushup
                (mount_keeps _ _)) as [Hs _].
    set (st := PoseDetector.runPushup detections PoseDetector.mountPushup)
      in *.
    destruct (results_cases results) as [Hno | (l & rest & ->)].
    + rewrite processPushup_no_pose by exact Hno. cbv zeta. auto.
    + destruct (processPushup_pose l rest st) as (r & e & Hr & He & ->).
      cbn [PoseDetector.phase]. cbv zeta. unfold synced in Hs. rewrite Hs.
      destruct (PushupRules.phase_eqb _ _) eqn:E; [auto|].
      intros Hb.
      destruct (determinePushupPhase_cases (Some l)
                  st.(PoseDetector.prevPhaseRef)
                  st.(PoseDetector.prevValueRef))
        as [Hskip | (l' & a & _ & _ & _ & Hstep)].
      * rewrite Hskip in Hr. injection Hr as <-. cbn in Hb. auto.
      * rewrite Hstep in Hr. injection Hr as <-. cbn in Hb.
        exact (pushupTransition_bottom _ _ _ Hb).
Qed.

Lemma processSquat_refs (results : PoseDetector.DetectedPoses)
    (st st' : PoseDetector.Detector SquatRules.SQUAT_PHASES) :
  refs st = refs st' ->
  refs (PoseDetector.processSquat results st)
  = refs (PoseDetector.processSquat results st').
Proof.
  intros E. unfold refs in E. injection E as E1 E2 E3.
  destruct (results_cases results) as [Hno | (l & rest & ->)].
  - rewrite !processSquat_no_pose by exact Hno. unfold refs. congruence.
  - destruct (processSquat_pose l rest st) as (r & e & Hr & _ & ->).
    destruct (processSquat_pose l rest st') as (r' & e' & Hr' & _ & ->).
    rewrite <- E2, <- E3, Hr in Hr'. injection Hr' as <-.
    unfold refs. cbn. rewrite E1, E2. reflexivity.
Qed.

Lemma processPushup_refs (results : PoseDetector.DetectedPoses)
    (st st' : PoseDetector.Detector PushupRules.PUSHUP_PHASES) :
  refs st = refs st' ->
  refs (PoseDetector.processPushup results st)
  = refs (PoseDetector.processPushup results st').
Proof.
  intros E. unfold refs in E. injection E as E1 E2 E3.
  destruct (results_cases results) as [Hno | (l & rest & ->)].
  - rewrite !processPushup_no_pose by exact Hno. unfold refs. congruence.
  - destruct (processPushup_pose l rest st) as (r & e & Hr & _ & ->).
    destruct (processPushup_pose l rest st') as (r' & e' & Hr' & _ & ->).
    rewrite <- E2, <- E3, Hr in Hr'. injection Hr' as <-.
    unfold refs. cbn. rewrite E1, E2. reflexivity.
Qed.

Lemma runSquat_refs (detections : list PoseDetector.DetectedPoses)
    (st st' : PoseDetector.Detector SquatRules.SQUAT_PHASES) :
  refs st = refs st' ->
  refs (PoseDetector.runSquat detections st)
  = refs (PoseDetector.runSquat detections st').
Proof.
  revert st st'. induction detections as [|d ds IH]; intros st st' E;
    [exact E|].
  apply IH, processSquat_refs, E.
Qed.

Lemma runPushup_refs (detections : list PoseDetector.DetectedPoses)
    (st st' : PoseDetector.Detector PushupRules.PUSHUP_PHASES) :
  refs st = refs st' ->
  refs (PoseDetector.runPushup detections st)
  = refs (PoseDetector.runPushup detections st').
Proof.
  revert st st'. induction detections as [|d ds IH]; intros st st' E;
    [exact E|].
  apply IH, processPushup_refs, E.
Qed.


(** A classifier returns its previous state on a frame it cannot use. *)
Lemma determineSquatPhase_unusable (landmarks : Landmarks)
    (prevPhase : SquatRules.SQUAT_PHASES) (prevHipHeight : nullable) :
  unusable squatPhaseLandmarks landmarks ->
  SquatRules.determineSquatPhase landmarks prevPhase prevHipHeight
  = Ok {| SquatRules.phase := prevPhase;
          SquatRules.hipHeight := prevHipHeight |}.
Proof.
  intros H. destruct landmarks as [[|p l]|]; try reflexivity.
  destruct H as (name & Hin & Hhid).
  unfold SquatRules.determineSquatPhase.
  rewrite getNamedLandmarks_cons.
  simpl in Hin.
  destruct Hin as [<-|[<-|[<-|[<-|[<-|[<-|[]]]]]]]; skip_hidden Hhid.
Qed.

Lemma determinePushupPhase_unusable (landmarks : Landmarks)
    (prevPhase : PushupRules.PUSHUP_PHASES) (prevElbowAngle : nullable) :
  unusable pushupPhaseLandmarks landmarks ->
  PushupRules.determinePushupPhase landmarks prevPhase prevElbowAngle
  = Ok {| PushupRules.phase := prevPhase;
          PushupRules.elbowAngle := prevElbowAngle |}.
Proof.
  intros H. destruct landmarks as [[|p l]|]; try reflexivity.
  destruct H as (name & Hin & Hhid).
  unfold PushupRules.determinePushupPhase.
  rewrite getNamedLandmarks_cons.
  simpl in Hin.
  destruct Hin as [<-|[<-|[<-|[<-|[<-|[<-|[]]]]]]]; skip_hidden Hhid.
Qed.

Lemma processSquat_skipped (results : PoseDetector.DetectedPoses)
    (st : PoseDetector.Detector SquatRules.SQUAT_PHASES) :
  skipped squatPhaseLandmarks results ->
  refs (PoseDetector.processSquat results st) = refs st.
Proof.
  intros Hskip.
  destruct (results_cases results) as [Hno | (l & rest & ->)].
  - rewrite processSquat_no_pose by exact Hno. reflexivity.
  - destruct (processSquat_pose l rest st) as (r & e & Hr & _ & ->).
    cbn [skipped] in Hskip.
    rewrite (determineSquatPhase_unusable _ _ _ Hskip) in Hr.
    injection Hr as <-. unfold refs. cbn.
    rewrite (proj2 (squat_phase_eqb_eq _ _) eq_refl). reflexivity.
Qed.

Lemma processPushup_skipped (results : PoseDetector.DetectedPoses)
    (st : PoseDetector.Detector PushupRules.PUSHUP_PHASES) :
  skipped pushupPhaseLandmarks results ->
  refs (PoseDetector.processPushup results st) = refs st.
Proof.
  intros Hskip.
  destruct (results_cases results) as [Hno | (l & rest & ->)].
  - rewrite processPushup_no_pose by exact Hno. reflexivity.
  - destruct (processPushup_pose l rest st) as (r & e & Hr & _ & ->).
    cbn [skipped] in Hskip.
    rewrite (determinePushupPhase_unusable _ _ _ Hskip) in Hr.
    injection Hr as <-. unfold refs. cbn.
    rewrite (proj2 (pushup_phase_eqb_eq _ _) eq_refl). reflexivity.
Qed.

(** A detection the classifier skips changes neither the phase shown nor
    the refs at the end of the session: the session runs as if the detection
    had not happened. *)
Theorem skipped_detections_are_transparent
    (before after : list PoseDetector.DetectedPoses)
    (results : PoseDetector.DetectedPoses) :
  (skipped squatPhaseLandmarks results ->
   forall st,
     refs (PoseDetector.runSquat (before ++ results :: after) st)
     = refs (PoseDetector.runSquat (before ++ after) st))
  /\ (skipped pushupPhaseLandmarks results ->
      forall st,
        refs (PoseDetector.runPushup (before ++ results :: after) st)
        = refs (PoseDetector.runPushup (before ++ after) st)).
Proof.
  split; intros Hskip st.
  - unfold PoseDetector.runSquat. rewrite !fold_left_app. cbn [fold_left].
    apply runSquat_refs, processSquat_skipped, Hskip.
  - unfold PoseDetector.runPushup. rewrite !fold_left_app. cbn [fold_left].
    apply runPushup_refs, processPushup_skipped, Hskip.
Qed.

(** ** Frames seen by both rules, and names *)

Lemma evaluatePushupForm_angles (l : list Point)
    (phase : PushupRules.PUSHUP_PHASES) (r : Evaluation) :
  PushupRules.evaluatePushupForm (Some l) phase = Ok r ->
  (r.(angles) <> None <-> allShown l pushupFormLandmarks).
Proof.
  destruct l as [|p l].
  - intros E. injection E as <-. cbn [angles]. split; [congruence|].
    intros H. exfalso.
    apply (allShown_nonempty pushupFormLandmarks leftShoulder); simpl; auto.
  - unfold PushupRules.evaluatePushupForm.
    rewrite getNamedLandmarks_cons.
    unfold PushupRules.THRESHOLDS.CONFIDENCE_THRESHOLD. cbn [existsb].
    repeat match goal with
    | |- context [isPointVisible (landmark ?f ?n) ?t] =>
      let E := fresh "Evis" in
      destruct (isPointVisible (landmark f n) t) eqn:E;
      cbn [negb orb];
      [| solve [ intros Er; injection Er as <-; cbn [angles];
                 split; [congruence|];
                 intros Hs; exfalso;
                 assert (shown f n) as Hn by (apply Hs; simpl; tauto);
                 apply isPointVisible_shown in Hn; congruence ] ]
    end.
    intros Hrun. name_points.
    pushup_points p l Elm.
    rewrite Elm, Elm0, Elm1, Elm2, Elm3, Elm4, Elm5, Elm6, En, El, Er in Hrun.
    cbn [deref bind] in Hrun. injection Hrun as <-. cbn [angles].
    split; [|discriminate]. intros _.
    apply allShown_intro. repeat constructor; assumption.
Qed.

Lemma allShown_incl (l : list Point) (names names' : list LandmarkName) :
  incl names' names -> allShown l names -> allShown l names'.
Proof. intros Hi H name Hin. apply H, Hi, Hin. Qed.

(** A frame for which an evaluator reports angles is never skipped by the
    classifier of the same exercise: the classifier returns the new
    metric. *)
Theorem evaluated_frames_are_measured :
  (forall l phase r,
      SquatRules.evaluateSquatForm (Some l) phase = Ok r ->
      r.(angles) <> None ->
      forall prevPhase prevHipHeight,
      exists newPhase h,
        avgHipHeight l = Some h
        /\ SquatRules.determineSquatPhase (Some l) prevPhase prevHipHeight
           = Ok {| SquatRules.phase := newPhase;
                   SquatRules.hipHeight := Some h |})
  /\ (forall l phase r,
        PushupRules.evaluatePushupForm (Some l) phase = Ok r ->
        r.(angles) <> None ->
        forall prevPhase prevElbowAngle,
        exists newPhase a,
          avgElbowAngle l = Some a
          /\ PushupRules.determinePushupPhase (Some l) prevPhase
               prevElbowAngle
             = Ok {| PushupRules.phase := newPhase;
                     PushupRules.elbowAngle := Some a |}).
Proof.
  split.
  - intros l phase r Hr Hang pp pv.
    apply (evaluateSquatForm_angles l phase r Hr) in Hang.
    assert (allShown l squatPhaseLandmarks) as Hs.
    { apply (allShown_incl l squatFormLandmarks); [|exact Hang].
      intros name Hin. simpl in *. tauto. }
    destruct (determineSquatPhase_usable l pp pv Hs)
      as (a & h & _ & Hh & Hrun).
    eauto.
  - intros l phase r Hr Hang pp pv.
    apply (evaluatePushupForm_angles l phase r Hr) in Hang.
    assert (allShown l pushupPhaseLandmarks) as Hs.
    { apply (allShown_incl l pushupFormLandmarks); [|exact Hang].
      intros name Hin. simpl in *. tauto. }
    destruct (determinePushupPhase_usable l pp pv Hs) as (a & Ha & Hrun).
    eauto.
Qed.

Lemma armFrame_shown (deg : R) : allShown (armFrame deg) pushupFormLandmarks.
Proof.
  intros name Hin. simpl in Hin.
  destruct Hin as [<-|[<-|[<-|[<-|[<-|[<-|[<-|[<-|[]]]]]]]]];
    unfold shown, landmark; simpl; lra.
Qed.

(** Two test poses that both rules accept. *)
Lemma evaluated_frames_are_measured_witness :
  (exists newPhase h,
      avgHipHeight (legFrame 130 0.5) = Some h
      /\ SquatRules.determineSquatPhase (Some (legFrame 130 0.5))
           SquatRules.STANDING None
         = Ok {| SquatRules.phase := newPhase;
                 SquatRules.hipHeight := Some h |})
  /\ (exists newPhase a,
        avgElbowAngle (armFrame 130) = Some a
        /\ PushupRules.determinePushupPhase (Some (armFrame 130))
             PushupRules.TOP None
           = Ok {| PushupRules.phase := newPhase;
                   PushupRules.elbowAngle := Some a |}).
Proof.
  split.
  - destruct (evaluateSquatForm_shape (Some (legFrame 130 0.5))
                SquatRules.BOTTOM) as (r & Hr & _).
    apply (proj1 evaluated_frames_are_measured _ _ r Hr).
    apply (evaluateSquatForm_angles _ _ _ Hr), legFrame_shown.
  - destruct (evaluatePushupForm_shape (Some (armFrame 130))
                PushupRules.BOTTOM) as (r & Hr & _).
    apply (proj2 evaluated_frames_are_measured _ _ r Hr).
    apply (evaluatePushupForm_angles _ _ _ Hr), armFrame_shown.
Defined.

(** Distinct names read distinct positions of the array, and a non-empty
    array binds every name to a point exactly when it has at least
    seventeen points. *)
Theorem getNamedLandmarks_bindings (p : Point) (l : list Point) :
  (forall n1 n2, landmarkIndices n1 = landmarkIndices n2 -> n1 = n2)
  /\ exists named,
       getNamedLandmarks (Some (p :: l)) = Some named
       /\ (forall name, named name = nth_error (p :: l) (landmarkIndices name))
       /\ ((forall name, named name <> None) <-> 17 <= List.length (p :: l)).
Proof.
  split.
  - intros n1 n2. destruct n1, n2; simpl; intros E; try reflexivity;
      discriminate E.
  - eexists. split; [reflexivity|]. split; [reflexivity|].
    split.
    + intros H. specialize (H rightAnkle). unfold landmark in H.
      apply nth_error_Some in H. simpl landmarkIndices in H. lia.
    + intros Hlen name. apply nth_error_Some.
      assert (landmarkIndices name < 17) by (destruct name; simpl; lia).
      lia.
Qed.

(** ** Instances of the further properties *)

Section Witnesses.
Local Open Scope R_scope.

Lemma pt_finite (u v w : R) : finitePoint (pt u v w).
Proof. repeat split; eexists; reflexivity. Qed.





(** Two points that differ in depth. *)
Lemma calculateDistance_le_3D_witness :
  exists d2 d3,
    calculateDistance (pt 0 0 0) (pt 3 4 1) = Num d2
    /\ calculate3DDistance (pt 0 0 0) (pt 3 4 1) = Num d3
    /\ d2 <= d3.
Proof.
  apply calculateDistance_le_3D; apply pt_finite.
Defined.


(** The refs after one block on a test pose. *)
Lemma processSquat_legFrame (deg h : R) (rest : list (list Point))
    (st : PoseDetector.Detector SquatRules.SQUAT_PHASES) :
  0 <= deg <= 180 ->
  synced st ->
  let t := squatTransition (Num deg) (Num h) st.(PoseDetector.prevPhaseRef)
             st.(PoseDetector.prevValueRef) in
  refs (PoseDetector.processSquat (Some (legFrame deg h :: rest)) st)
  = (t, t, Some (Num h)).
Proof.
  intros Hdeg Hs t.
  destruct (processSquat_pose (legFrame deg h) rest st)
    as (r & e & Hr & _ & ->).
  rewrite determineSquatPhase_legFrame in Hr by exact Hdeg.
  injection Hr as <-. unfold refs. cbn. fold t.
  destruct (SquatRules.phase_eqb _ _) eqn:E; [|reflexivity].
  apply squat_phase_eqb_eq in E. unfold synced in Hs. rewrite Hs, E.
  reflexivity.
Qed.

Lemma processPushup_armFrame (deg : R) (rest : list (list Point))
    (st : PoseDetector.Detector PushupRules.PUSHUP_PHASES) :
  0 <= deg <= 180 ->
  synced st ->
  let t := pushupTransition (Num deg) st.(PoseDetector.prevPhaseRef)
             st.(PoseDetector.prevValueRef) in
  refs (PoseDetector.processPushup (Some (armFrame deg :: rest)) st)
  = (t, t, Some (Num deg)).
Proof.
  intros Hdeg Hs t.
  destruct (processPushup_pose (armFrame deg) rest st)
    as (r & e & Hr & _ & ->).
  rewrite determinePushupPhase_armFrame in Hr by exact Hdeg.
  injection Hr as <-. unfold refs. cbn. fold t.
  destruct (PushupRules.phase_eqb _ _) eqn:E; [|reflexivity].
  apply pushup_phase_eqb_eq in E. unfold synced in Hs. rewrite Hs, E.
  reflexivity.
Qed.

Lemma squat_session_reaches_bottom :
  refs (PoseDetector.runSquat [Some [legFrame 100 0.5]]
          PoseDetector.mountSquat)
  = (SquatRules.DESCENDING, SquatRules.DESCENDING, Some (Num 0.5))
  /\ refs (PoseDetector.runSquat
             [Some [legFrame 100 0.5]; Some [legFrame 140 0.4]]
             PoseDetector.mountSquat)
     = (SquatRules.BOTTOM, SquatRules.BOTTOM, Some (Num 0.4)).
Proof.
  assert (refs (PoseDetector.runSquat [Some [legFrame 100 0.5]]
                  PoseDetector.mountSquat)
          = (SquatRules.DESCENDING, SquatRules.DESCENDING, Some (Num 0.5)))
    as E1.
  { unfold PoseDetector.runSquat. cbn [fold_left].
    rewrite processSquat_legFrame; [|lra|reflexivity].
    cbn [PoseDetector.mountSquat PoseDetector.mount PoseDetector.prevPhaseRef
         PoseDetector.prevValueRef].
    replace (squatTransition (Num 100) (Num 0.5) SquatRules.STANDING None)
      with SquatRules.DESCENDING by (symmetry; eval_transition).
    reflexivity. }
  split; [exact E1|].
  change (PoseDetector.runSquat
            [Some [legFrame 100 0.5]; Some [legFrame 140 0.4]]
            PoseDetector.mountSquat)
    with (PoseDetector.processSquat (Some [legFrame 140 0.4])
            (PoseDetector.runSquat [Some [legFrame 100 0.5]]
               PoseDetector.mountSquat)).
  set (st := PoseDetector.runSquat _ _) in *.
  unfold refs in E1. injection E1 as Ep Er Ev.
  rewrite processSquat_legFrame; [|lra|unfold synced; congruence].
  rewrite Er, Ev.
  replace (squatTransition (Num 140) (Num 0.4) SquatRules.DESCENDING
             (Some (Num 0.5)))
    with SquatRules.BOTTOM by (symmetry; eval_transition).
  reflexivity.
Qed.

Lemma pushup_session_reaches_bottom :
  refs (PoseDetector.runPushup [Some [armFrame 100]]
          PoseDetector.mountPushup)
  = (PushupRules.DESCENDING, PushupRules.DESCENDING, Some (Num 100))
  /\ refs (PoseDetector.runPushup
             [Some [armFrame 100]; Some [armFrame 130]]
             PoseDetector.mountPushup)
     = (PushupRules.BOTTOM, PushupRules.BOTTOM, Some (Num 130)).
Proof.
  assert (refs (PoseDetector.runPushup [Some [armFrame 100]]
                  PoseDetector.mountPushup)
          = (PushupRules.DESCENDING, PushupRules.DESCENDING, Some (Num 100)))
    as E1.
  { unfold PoseDetector.runPushup. cbn [fold_left].
    rewrite processPushup_armFrame; [|lra|reflexivity].
    cbn [PoseDetector.mountPushup PoseDetector.mount
         PoseDetector.prevPhaseRef PoseDetector.prevValueRef].
    replace (pushupTransition (Num 100) PushupRules.TOP None)
      with PushupRules.DESCENDING by (symmetry; eval_transition).
    reflexivity. }
  split; [exact E1|].
  change (PoseDetector.runPushup
            [Some [armFrame 100]; Some [armFrame 130]]
            PoseDetector.mountPushup)
    with (PoseDetector.processPushup (Some [armFrame 130])
            (PoseDetector.runPushup [Some [armFrame 100]]
               PoseDetector.mountPushup)).
  set (st := PoseDetector.runPushup _ _) in *.
  unfold refs in E1. injection E1 as Ep Er Ev.
  rewrite processPushup_armFrame; [|lra|unfold synced; congruence].
  rewrite Er, Ev.
  replace (pushupTransition (Num 130) PushupRules.DESCENDING
             (Some (Num 100)))
    with PushupRules.BOTTOM by (symmetry; eval_transition).
  reflexivity.
Qed.

(** Two sessions that reach [bottom] at their second detection. *)
Lemma bottom_follows_descending_in_session_witness :
  (let before :=
     (PoseDetector.runSquat [Some [legFrame 100 0.5]]
        PoseDetector.mountSquat).(PoseDetector.phase) in
   before = SquatRules.BOTTOM \/ before = SquatRules.DESCENDING)
  /\ (let before :=
        (PoseDetector.runPushup [Some [armFrame 100]]
           PoseDetector.mountPushup).(PoseDetector.phase) in
      before = PushupRules.BOTTOM \/ before = PushupRules.DESCENDING).
Proof.
  split.
  - apply (proj1 (bottom_follows_descending_in_session
                    [Some [legFrame 100 0.5]] (Some [legFrame 140 0.4]))).
    destruct squat_session_reaches_bottom as [_ E].
    unfold refs in E. injection E as E _ _. exact E.
  - apply (proj2 (bottom_follows_descending_in_session
                    [Some [armFrame 100]] (Some [armFrame 130]))).
    destruct pushup_session_reaches_bottom as [_ E].
    unfold refs in E. injection E as E _ _. exact E.
Defined.

(** The same sessions with a skipped detection in the middle. *)
Lemma skipped_detections_are_transparent_witness :
  refs (PoseDetector.runSquat
          [Some [legFrame 100 0.5]; Some [dimKneeFrame 100 0.7];
           Some [legFrame 140 0.4]] PoseDetector.mountSquat)
  = refs (PoseDetector.runSquat
            [Some [legFrame 100 0.5]; Some [legFrame 140 0.4]]
            PoseDetector.mountSquat)
  /\ refs (PoseDetector.runPushup
             [Some [armFrame 100]; Some [upperBodyFrame]; Some [armFrame 130]]
             PoseDetector.mountPushup)
     = refs (PoseDetector.runPushup
               [Some [armFrame 100]; Some [armFrame 130]]
               PoseDetector.mountPushup).
Proof.
  split.
  - apply (proj1 (skipped_detections_are_transparent
                    [Some [legFrame 100 0.5]] [Some [legFrame 140 0.4]]
                    (Some [dimKneeFrame 100 0.7]))).
    exists leftKnee. split; [simpl; tauto | apply dimKneeFrame_hidden].
  - apply (proj2 (skipped_detections_are_transparent
                    [Some [armFrame 100]] [Some [armFrame 130]]
                    (Some [upperBodyFrame]))).
    exists leftWrist. split; [simpl; tauto | apply upperBodyFrame_hidden].
Defined.
End Witnesses.
